(** * isatools.isatab: the ISA-Tab loader and serializer

    A shallow embedding of [src/isatools/isatab.py]: the nested builder
    functions of [load], the pandas table construction of [dump], and
    [loads].  Python exceptions are a result monad, Python dictionaries
    whose iteration order is observable are insertion-ordered association
    lists, and raw metadata records (header -> value) are finite maps. *)

From Stdlib Require Import String Ascii List Lia Bool Arith.
From stdpp Require Import base option list strings gmap.

Open Scope string_scope.
Open Scope list_scope.

(** ** Exceptions and the result monad *)

Inductive exn : Type :=
| KeyError (key : string)
| IndexError
| IOError (msg : string)
| AttributeError (attr : string)
| NotImplementedError (msg : string).

Inductive result (A : Type) : Type :=
| Ok (a : A)
| Raise (e : exn).
Arguments Ok {A} a.
Arguments Raise {A} e.

Definition result_bind {A B} (f : A → result B) (m : result A) : result B :=
  match m with
  | Ok a => f a
  | Raise e => Raise e
  end.

#[global] Instance result_mbind : MBind result := @result_bind.
#[global] Instance result_mret : MRet result := @Ok.

(** [try: m except: d] with a bare [except] clause. *)
Definition try_except {A} (m : result A) (d : A) : A :=
  match m with Ok a => a | Raise _ => d end.

(** [try: m except KeyError: pass], where [m] extends a list. *)
Definition try_except_KeyError {A} (m : result A) (d : A) : result A :=
  match m with
  | Ok a => Ok a
  | Raise (KeyError _) => Ok d
  | Raise e => Raise e
  end.

(** [for x in xs: body], threading the variables the body assigns. *)
Fixpoint for_in {A S} (xs : list A) (body : S → A → result S) (s : S) : result S :=
  match xs with
  | [] => Ok s
  | x :: xs' => s' ← body s x; for_in xs' body s'
  end.

(** ** Python containers *)

(** A raw metadata record: table header -> value. *)
Abbreviation record := (gmap string string).

(** [d[k]] on a record. *)
Definition getitem (d : record) (k : string) : result string :=
  match d !! k with
  | Some v => Ok v
  | None => Raise (KeyError k)
  end.

(** [l[i]] for [0 <= i]. *)
Definition list_getitem {A} (l : list A) (i : nat) : result A :=
  match l !! i with
  | Some x => Ok x
  | None => Raise IndexError
  end.

(** [l[-1]]. *)
Definition list_last {A} (l : list A) : result A :=
  match last l with
  | Some x => Ok x
  | None => Raise IndexError
  end.

(** An insertion-ordered dictionary with string keys. *)
Definition odict (V : Type) : Type := list (string * V).

Definition od_keys {V} (d : odict V) : list string := map fst d.
Definition od_values {V} (d : odict V) : list V := map snd d.

Fixpoint od_get {V} (d : odict V) (k : string) : option V :=
  match d with
  | [] => None
  | (k', v) :: d' => if decide (k' = k) then Some v else od_get d' k
  end.

Definition od_getitem {V} (d : odict V) (k : string) : result V :=
  match od_get d k with
  | Some v => Ok v
  | None => Raise (KeyError k)
  end.

(** [d.update({k: v})]: an existing key keeps its position. *)
Fixpoint od_update {V} (d : odict V) (k : string) (v : V) : odict V :=
  match d with
  | [] => [(k, v)]
  | (k', v') :: d' =>
      if decide (k' = k) then (k', v) :: d' else (k', v') :: od_update d' k v
  end.

(** ** Python string methods *)

(** [s.split(sep)] for a one-character separator.  The separator used by
    the source is ASCII, so splitting the UTF-8 bytes agrees with
    splitting the code points. *)
Fixpoint str_split (sep : ascii) (s : string) : list string :=
  match s with
  | EmptyString => [EmptyString]
  | String c s' =>
      if decide (c = sep) then EmptyString :: str_split sep s'
      else match str_split sep s' with
           | [] => [String c EmptyString]
           | t :: ts => String c t :: ts
           end
  end.

(** [sep.join(l)]. *)
Fixpoint str_join (sep : ascii) (l : list string) : string :=
  match l with
  | [] => EmptyString
  | [x] => x
  | x :: l' => x +:+ String sep (str_join sep l')
  end.

(** [s.replace(c, "")] for a one-character pattern. *)
Fixpoint str_remove (c : ascii) (s : string) : string :=
  match s with
  | EmptyString => EmptyString
  | String a s' => if decide (a = c) then str_remove c s' else String a (str_remove c s')
  end.

(** [s.startswith(p)]. *)
Definition startswith (s p : string) : bool := String.prefix p s.

(** [s.endswith(p)]. *)
Definition endswith (s p : string) : bool :=
  Nat.leb (String.length p) (String.length s)
  && bool_decide
       (String.substring (String.length s - String.length p) (String.length p) s = p).

Fixpoint contains_char (c : ascii) (s : string) : bool :=
  match s with
  | EmptyString => false
  | String a s' => bool_decide (a = c) || contains_char c s'
  end.

(** ** The entity model ([isatools.model.v1]) *)

Record OntologySourceReference : Type := mkOntologySourceReference {
  osr_description : string;
  osr_file : string;
  osr_name : string;
  osr_version : string
}.

(** The loader stores the raw column value in [term_source]; the
    serializer reads [term_source.name], which only an ontology source
    reference has. *)
Inductive TermSource : Type :=
| TermSourceUnset
| TermSourceRaw (s : string)
| TermSourceRef (r : OntologySourceReference).

Definition term_source_name (t : TermSource) : result string :=
  match t with
  | TermSourceRef r => Ok (osr_name r)
  | _ => Raise (AttributeError "name")
  end.

Record OntologyAnnotation : Type := mkOntologyAnnotation {
  oa_name : string;
  term_source : TermSource;
  term_accession : string
}.

(** ** The Annotation Assembler *)

(** [_createOntologyAnnotationForInvOrStudy], lines 56-62. *)
Definition _createOntologyAnnotationForInvOrStudy
    (object_ : record) (inv_or_study type_ : string) : result OntologyAnnotation :=
  name ← getitem object_ (inv_or_study +:+ type_);
  src ← getitem object_ ((inv_or_study +:+ type_) +:+ " Term Source REF");
  acc ← getitem object_ ((inv_or_study +:+ type_) +:+ " Term Accession Number");
  Ok (mkOntologyAnnotation name (TermSourceRaw src) acc).

(** [_createOntologyAnnotationsFromStringList], lines 153-165. *)
Definition _createOntologyAnnotationsFromStringList
    (object_ : record) (inv_or_study type_ : string) : result (list OntologyAnnotation) :=
  names ← getitem object_ (inv_or_study +:+ type_);
  let name_array := str_split ";" names in
  srcs ← getitem object_ ((inv_or_study +:+ type_) +:+ " Term Source REF");
  let term_source_array := str_split ";" srcs in
  accs ← getitem object_ ((inv_or_study +:+ type_) +:+ " Term Accession Number");
  let term_accession_array := str_split ";" accs in
  let onto_annotations := [] in
  for_in (seq 0 (length name_array))
    (λ onto_annotations i,
       n ← list_getitem name_array i;
       s ← list_getitem term_source_array i;
       a ← list_getitem term_accession_array i;
       let onto_ann := mkOntologyAnnotation n (TermSourceRaw s) a in
       Ok (onto_annotations ++ [onto_ann]))
    onto_annotations.

(** ** Entities *)

(** The constructors take the keyword arguments of the source in the
    order the source passes them.  Where two classes share an attribute
    name ([name], [title], [description], ...), the field carries a
    prefix for its class. *)

Record Publication : Type := mkPublication {
  pubmed_id : string;
  doi : string;
  author_list : string;
  pub_title : string;
  status : OntologyAnnotation
}.

Record Contact : Type := mkContact {
  last_name : string;
  first_name : string;
  mid_initials : string;
  email : string;
  phone : string;
  fax : string;
  address : string;
  affiliation : string;
  roles : list OntologyAnnotation
}.

Record ProtocolParameter : Type := mkProtocolParameter {
  pp_name : OntologyAnnotation
}.

Record Protocol : Type := mkProtocol {
  prot_name : string;
  protocol_type : OntologyAnnotation;
  prot_description : string;
  uri : string;
  version : string;
  prot_parameters : list ProtocolParameter
}.

(** The dictionary [{"characteristic": ...}] of [_createCharacteristicList]. *)
Record CharacteristicItem : Type := mkCharacteristicItem {
  characteristic : OntologyAnnotation
}.

(** The dictionary [{"name": ..., "characteristics": ...}] of a source. *)
Record SourceItem : Type := mkSourceItem {
  source_name : string;
  source_characteristics : list CharacteristicItem
}.

(** The dictionary [{"name": ..., "factors": ..., "characteristics": ...}]
    of a sample. *)
Record SampleItem : Type := mkSampleItem {
  sample_name : string;
  factors : list OntologyAnnotation;
  sample_characteristics : list CharacteristicItem
}.

Record Data : Type := mkData {
  data_name : string;
  type_ : string
}.

(** An entry of a process's [inputs]: a value of either dictionary. *)
Inductive Material : Type :=
| OfSource (s : SourceItem)
| OfSample (s : SampleItem).

Record Process : Type := mkProcess {
  executesProtocol : record;
  proc_parameters : list ProtocolParameter;
  inputs : list Material;
  outputs : list SampleItem
}.

Record Assay : Type := mkAssay {
  file_name : string;
  measurement_type : OntologyAnnotation;
  technology_type : OntologyAnnotation;
  technology_platform : string;
  assay_process_sequence : list Process
}.

Record Study : Type := mkStudy {
  study_identifier : string;
  study_title : string;
  study_description : string;
  study_submission_date : string;
  study_public_release_date : string;
  design_descriptors : list OntologyAnnotation;
  study_pubs : list Publication;
  study_people : list Contact;
  protocols : list Protocol;
  sources : list SourceItem;
  samples : list SampleItem;
  process_sequence : list Process;
  assays : list Assay
}.

Record Investigation : Type := mkInvestigation {
  identifier : string;
  title : string;
  description : string;
  submission_date : string;
  public_release_date : string;
  ontology_source_references : list OntologySourceReference;
  publications : list Publication;
  contacts : list Contact;
  studies : list Study
}.

(** ** The raw parse tree ([isatab_parser], consumed as given) *)

Record Node : Type := mkNode {
  ntype : string;
  node_name : string;
  node_metadata : odict string
}.

(** [study_assay] is [None] when the process node has no such attribute. *)
Record ProcessNode : Type := mkProcessNode {
  study_assay : option record;
  pn_inputs : list string;
  pn_outputs : list string
}.

Record RawAssay : Type := mkRawAssay {
  assay_metadata : record;
  assay_nodes : odict Node;
  assay_process_nodes : odict ProcessNode
}.

Record RawStudy : Type := mkRawStudy {
  study_metadata : record;
  raw_design_descriptors : list record;
  raw_study_publications : list record;
  raw_study_contacts : list record;
  raw_protocols : list record;
  study_nodes : odict Node;
  study_process_nodes : odict ProcessNode;
  raw_assays : list RawAssay
}.

Record IsaTab : Type := mkIsaTab {
  metadata : record;
  ontology_refs : list record;
  raw_publications : list record;
  raw_contacts : list record;
  raw_studies : list RawStudy
}.

(** ** Entity builders *)

(** [_createOntologySourceReferences], lines 31-41. *)
Definition _createOntologySourceReferences (ontology_refs : list record)
    : result (list OntologySourceReference) :=
  let ontologies := [] in
  for_in ontology_refs
    (λ ontologies ontology_ref,
       d ← getitem ontology_ref "Term Source Description";
       f ← getitem ontology_ref "Term Source File";
       n ← getitem ontology_ref "Term Source Name";
       v ← getitem ontology_ref "Term Source Version";
       let ontology := mkOntologySourceReference d f n v in
       Ok (ontologies ++ [ontology]))
    ontologies.

(** [_createPublications], lines 43-54.  Line 44 rebinds the parameter
    [publications] to a new empty list; that list is the one the loop
    iterates over and the one returned. *)
Definition _createPublications (publications : list record) (inv_or_study : string)
    : result (list Publication) :=
  let publications := (λ A : Type, @nil A) in
  for_in (publications record)
    (λ publications pub,
       pm ← getitem pub (inv_or_study +:+ " PubMed ID");
       d ← getitem pub (inv_or_study +:+ " Publication DOI");
       al ← getitem pub (inv_or_study +:+ " Publication Author List");
       t ← getitem pub (inv_or_study +:+ " Publication Title");
       st ← _createOntologyAnnotationForInvOrStudy pub inv_or_study " Publication Status";
       let publication := mkPublication pm d al t st in
       Ok (publications ++ [publication]))
    (publications Publication).

(** [_createContacts], lines 64-79. *)
Definition _createContacts (contacts : list record) (inv_or_study : string)
    : result (list Contact) :=
  let people_json := [] in
  for_in contacts
    (λ people_json contact,
       ln ← getitem contact (inv_or_study +:+ " Person Last Name");
       fn ← getitem contact (inv_or_study +:+ " Person First Name");
       mi ← getitem contact (inv_or_study +:+ " Person Mid Initials");
       em ← getitem contact (inv_or_study +:+ " Person Email");
       ph ← getitem contact (inv_or_study +:+ " Person Phone");
       fx ← getitem contact (inv_or_study +:+ " Person Fax");
       ad ← getitem contact (inv_or_study +:+ " Person Address");
       af ← getitem contact (inv_or_study +:+ " Person Affiliation");
       let person_json := mkContact ln fn mi em ph fx ad af [] in
       Ok (people_json ++ [person_json]))
    people_json.

(** [_createOntologyAnnotationListForInvOrStudy], lines 117-126. *)
Definition _createOntologyAnnotationListForInvOrStudy
    (array : list record) (inv_or_study type_ : string) : result (list OntologyAnnotation) :=
  let onto_annotations := [] in
  for_in array
    (λ onto_annotations object_,
       n ← getitem object_ (inv_or_study +:+ type_);
       s ← getitem object_ ((inv_or_study +:+ type_) +:+ " Term Source REF");
       a ← getitem object_ ((inv_or_study +:+ type_) +:+ " Term Accession Number");
       let onto_ann := mkOntologyAnnotation n (TermSourceRaw s) a in
       Ok (onto_annotations ++ [onto_ann]))
    onto_annotations.

(** [_createProtocolParameterList], lines 142-151. *)
Definition _createProtocolParameterList (protocol : record) : result (list ProtocolParameter) :=
  let parameters_list := [] in
  parameters_annotations ←
    _createOntologyAnnotationsFromStringList protocol "Study" " Protocol Parameters Name";
  for_in parameters_annotations
    (λ parameters_list parameter_annotation,
       let parameter := mkProtocolParameter parameter_annotation in
       Ok (parameters_list ++ [parameter]))
    parameters_list.

(** [_createProtocols], lines 128-140. *)
Definition _createProtocols (protocols : list record) : result (list Protocol) :=
  let protocols_list := [] in
  for_in protocols
    (λ protocols_list prot,
       n ← getitem prot "Study Protocol Name";
       pt ← _createOntologyAnnotationForInvOrStudy prot "Study" " Protocol Type";
       d ← getitem prot "Study Protocol Description";
       u ← getitem prot "Study Protocol URI";
       v ← getitem prot "Study Protocol Version";
       ps ← _createProtocolParameterList prot;
       let protocol := mkProtocol n pt d u v ps in
       Ok (protocols_list ++ [protocol]))
    protocols_list.

(** ** Node dictionaries *)

(** Modelled from the spec: [OntologyAnnotation(name=...)] leaves the
    term source and accession at the constructor's defaults, which
    [isatools.model.v1] (not part of the sources at hand) declares; the
    characteristic's own source and accession are "not captured". *)
Definition OntologyAnnotation_named (name : string) : OntologyAnnotation :=
  mkOntologyAnnotation name TermSourceUnset "".

(** [_createCharacteristicList], lines 105-115. *)
Definition _createCharacteristicList (node_name : string) (node : Node)
    : result (list CharacteristicItem) :=
  let json_list := [] in
  for_in (od_keys (node_metadata node))
    (λ json_list header,
       if startswith header "Characteristics" then
         characteristic ← list_last (str_split "[" (str_remove "]" header));
         let characteristic_json := OntologyAnnotation_named characteristic in
         let json_item := mkCharacteristicItem characteristic_json in
         Ok (json_list ++ [json_item])
       else Ok json_list)
    json_list.

(** [_createSampleDictionary], lines 82-92. *)
Definition _createSampleDictionary (nodes : odict Node) : result (odict SampleItem) :=
  let json_dict := [] in
  for_in (od_keys nodes)
    (λ json_dict node_index,
       node ← od_getitem nodes node_index;
       if bool_decide (ntype node = "Sample Name") then
         node' ← od_getitem nodes node_index;
         cs ← _createCharacteristicList node_index node';
         let json_item := mkSampleItem node_index [] cs in
         Ok (od_update json_dict node_index json_item)
       else Ok json_dict)
    json_dict.

(** [_createSourcesDictionary], lines 94-103. *)
Definition _createSourcesDictionary (nodes : odict Node) : result (odict SourceItem) :=
  let json_dict := [] in
  for_in (od_keys nodes)
    (λ json_dict node_name,
       node ← od_getitem nodes node_name;
       if bool_decide (ntype node = "Source Name") then
         node' ← od_getitem nodes node_name;
         cs ← _createCharacteristicList node_name node';
         let json_item := mkSourceItem node_name cs in
         Ok (od_update json_dict node_name json_item)
       else Ok json_dict)
    json_dict.

(** [_createDataFiles], lines 168-177. *)
Definition _createDataFiles (nodes : odict Node) : result (odict Data) :=
  let json_dict := [] in
  for_in (od_keys nodes)
    (λ json_dict node_index,
       node ← od_getitem nodes node_index;
       if endswith (ntype node) "Data File" then
         n1 ← od_getitem nodes node_index;
         n2 ← od_getitem nodes node_index;
         let json_item := mkData (node_name n1) (ntype n2) in
         Ok (od_update json_dict node_index json_item)
       else Ok json_dict)
    json_dict.

(** ** Process sequence linker *)

(** [_createExecuteStudyProtocol], lines 206-214: an empty dictionary. *)
Definition _createExecuteStudyProtocol (process_node_name : string) (process_node : ProcessNode)
    : record := ∅.

(** [_createInputList], lines 216-229. *)
Definition _createInputList (inputs : list string)
    (source_dict : odict SourceItem) (sample_dict : odict SampleItem)
    : result (list Material) :=
  let json_list := [] in
  for_in inputs
    (λ json_list argument,
       json_list ← try_except_KeyError
         (json_item ← od_getitem source_dict argument;
          Ok (json_list ++ [OfSource json_item]))
         json_list;
       try_except_KeyError
         (json_item ← od_getitem sample_dict argument;
          Ok (json_list ++ [OfSample json_item]))
         json_list)
    json_list.

(** [_createOutputList], lines 231-239. *)
Definition _createOutputList (arguments : list string) (sample_dict : odict SampleItem)
    : result (list SampleItem) :=
  let json_list := [] in
  for_in arguments
    (λ json_list argument,
       try_except_KeyError
         (json_item ← od_getitem sample_dict argument;
          Ok (json_list ++ [json_item]))
         json_list)
    json_list.

(** [process_nodes[name].study_assay.metadata[key]]. *)
Definition study_assay_field (process_nodes : odict ProcessNode) (name key : string)
    : result string :=
  pn ← od_getitem process_nodes name;
  match study_assay pn with
  | None => Raise (AttributeError "study_assay")
  | Some md => getitem md key
  end.

(** [_createProcessSequence], lines 179-204.  The three assay fields are
    looked up under a bare [except] and then not used. *)
Definition _createProcessSequence (process_nodes : odict ProcessNode)
    (source_dict : odict SourceItem) (sample_dict : odict SampleItem)
    (data_dict : odict Data) : result (list Process) :=
  let json_list := [] in
  for_in (od_keys process_nodes)
    (λ json_list process_node_name,
       let measurement_type :=
         try_except (study_assay_field process_nodes process_node_name
                       "Study Assay Measurement Type") "" in
       let platform :=
         try_except (study_assay_field process_nodes process_node_name
                       "Study Assay Technology Platform") "" in
       let technology :=
         try_except (study_assay_field process_nodes process_node_name
                       "Study Assay Technology Type") "" in
       pn ← od_getitem process_nodes process_node_name;
       let ep := _createExecuteStudyProtocol process_node_name pn in
       pn_in ← od_getitem process_nodes process_node_name;
       ins ← _createInputList (pn_inputs pn_in) source_dict sample_dict;
       pn_out ← od_getitem process_nodes process_node_name;
       outs ← _createOutputList (pn_outputs pn_out) sample_dict;
       let json_item := mkProcess ep [] ins outs in
       Ok (json_list ++ [json_item]))
    json_list.

(** ** Graph assembler *)

(** [_createStudyAssaysList], lines 241-261. *)
Definition _createStudyAssaysList (assays : list RawAssay) : result (list Assay) :=
  let json_list := [] in
  for_in assays
    (λ json_list assay,
       source_dict ← _createSourcesDictionary (assay_nodes assay);
       sample_dict ← _createSampleDictionary (assay_nodes assay);
       data_dict ← _createDataFiles (assay_nodes assay);
       fnm ← getitem (assay_metadata assay) "Study Assay File Name";
       mt_n ← getitem (assay_metadata assay) "Study Assay Measurement Type";
       mt_s ← getitem (assay_metadata assay) "Study Assay Measurement Type Term Source REF";
       mt_a ← getitem (assay_metadata assay)
                "Study Assay Measurement Type Term Accession Number";
       tt_n ← getitem (assay_metadata assay) "Study Assay Technology Type";
       tt_s ← getitem (assay_metadata assay) "Study Assay Technology Type Term Source REF";
       tt_a ← getitem (assay_metadata assay)
                "Study Assay Technology Type Term Accession Number";
       tp ← getitem (assay_metadata assay) "Study Assay Technology Platform";
       ps ← _createProcessSequence (assay_process_nodes assay)
              source_dict sample_dict data_dict;
       let json_item :=
         mkAssay fnm (mkOntologyAnnotation mt_n (TermSourceRaw mt_s) mt_a)
                 (mkOntologyAnnotation tt_n (TermSourceRaw tt_s) tt_a) tp ps in
       Ok (json_list ++ [json_item]))
    json_list.

(** [_createStudies], lines 263-286. *)
Definition _createStudies (studies : list RawStudy) : result (list Study) :=
  let study_array := [] in
  for_in studies
    (λ study_array study,
       source_dict ← _createSourcesDictionary (study_nodes study);
       sample_dict ← _createSampleDictionary (study_nodes study);
       data_dict ← _createDataFiles (study_nodes study);
       i ← getitem (study_metadata study) "Study Identifier";
       t ← getitem (study_metadata study) "Study Title";
       d ← getitem (study_metadata study) "Study Description";
       sd ← getitem (study_metadata study) "Study Submission Date";
       pr ← getitem (study_metadata study) "Study Public Release Date";
       dd ← _createOntologyAnnotationListForInvOrStudy
              (raw_design_descriptors study) "Study" " Design Type";
       pubs ← _createPublications (raw_study_publications study) "Study";
       cs ← _createContacts (raw_study_contacts study) "Study";
       prots ← _createProtocols (raw_protocols study);
       ps ← _createProcessSequence (study_process_nodes study)
              source_dict sample_dict data_dict;
       asys ← _createStudyAssaysList (raw_assays study);
       let studyJson :=
         mkStudy i t d sd pr dd pubs cs prots
                 (od_values source_dict) (od_values sample_dict) ps asys in
       Ok (study_array ++ [studyJson]))
    study_array.

(** The body of [load] after the parser call, lines 288-306.  [None] for
    the tree is the parser's [None]; [Ok None] is the [None] that [load]
    returns. *)
Definition load_tree (isa_tab : option IsaTab) : result (option Investigation) :=
  let investigation := None in
  match isa_tab with
  | None => Raise (IOError "There was problem parsing the ISA Tab")
  | Some isa_tab =>
      if bool_decide (metadata isa_tab ≠ ∅) then
        i ← getitem (metadata isa_tab) "Investigation Identifier";
        t ← getitem (metadata isa_tab) "Investigation Title";
        d ← getitem (metadata isa_tab) "Investigation Description";
        sd ← getitem (metadata isa_tab) "Investigation Submission Date";
        pr ← getitem (metadata isa_tab) "Investigation Public Release Date";
        osr ← _createOntologySourceReferences (ontology_refs isa_tab);
        pubs ← _createPublications (raw_publications isa_tab) "Investigation";
        cs ← _createContacts (raw_contacts isa_tab) "Investigation";
        sts ← _createStudies (raw_studies isa_tab);
        let investigation := Some (mkInvestigation i t d sd pr osr pubs cs sts) in
        Ok investigation
      else Ok investigation
  end.

(** [load], lines 29-306, over the parser it calls. *)
Definition load (parse : string → result (option IsaTab)) (isatab_dir : string)
    : result (option Investigation) :=
  isa_tab ← parse isatab_dir;
  load_tree isa_tab.

(** Modelled from the spec: [Investigation()] with no arguments; the
    constructor and its default field values belong to
    [isatools.model.v1], which is not part of the sources at hand.  The
    defaults are taken to be empty. *)
Definition Investigation_default : Investigation :=
  mkInvestigation "" "" "" "" "" [] [] [] [].

(** [loads], lines 428-430. *)
Definition loads (s : string) : Investigation :=
  let isa_obj := Investigation_default in
  isa_obj.

(** ** Serializer *)

(** A pandas frame as [dump] uses it: named columns, and rows of cells
    under integer labels, in insertion order.  Every row assigned by
    [dump] has as many cells as the frame has columns. *)
Record DataFrame : Type := mkDataFrame {
  columns : list string;
  rows : list (nat * list string)
}.

(** [pandas.DataFrame(columns=...)]. *)
Definition DataFrame_new (cols : list string) : DataFrame := mkDataFrame cols [].

Fixpoint loc_rows (rs : list (nat * list string)) (i : nat) (cells : list string)
    : list (nat * list string) :=
  match rs with
  | [] => [(i, cells)]
  | (j, r) :: rs' =>
      if decide (j = i) then (j, cells) :: rs' else (j, r) :: loc_rows rs' i cells
  end.

(** [df.loc[i] = cells]: overwrite the row labelled [i], or add it. *)
Definition loc_set (df : DataFrame) (i : nat) (cells : list string) : DataFrame :=
  mkDataFrame (columns df) (loc_rows (rows df) i cells).

Fixpoint index_of (x : string) (l : list string) : option nat :=
  match l with
  | [] => None
  | y :: l' => if decide (y = x) then Some 0 else S <$> index_of x l'
  end.

Fixpoint remove_nth {A} (n : nat) (l : list A) : list A :=
  match n, l with
  | _, [] => []
  | 0, _ :: l' => l'
  | S n', x :: l' => x :: remove_nth n' l'
  end.

(** The frame [df.set_index(col).T]: the data columns are labelled by the
    values of [col], one per row of [df]; there is one row per other
    column of [df], labelled by that column's name. *)
Record Transposed : Type := mkTransposed {
  t_columns : list string;
  t_rows : list (string * list string)
}.

Definition set_index_T (df : DataFrame) (col : string) : result Transposed :=
  match index_of col (columns df) with
  | None => Raise (KeyError col)
  | Some p =>
      let cell (j : nat) (r : nat * list string) := nth j (snd r) "" in
      let labels := map (cell p) (rows df) in
      let others := remove_nth p (seq 0 (length (columns df))) in
      Ok (mkTransposed labels
            (map (λ j, (nth j (columns df) "", map (cell j) (rows df))) others))
  end.

(** The cells [to_csv(..., index_label=l)] writes, line by line: the index
    label and the column labels, then each row's label and cells. *)
Definition to_csv (t : Transposed) (index_label : string) : list (list string) :=
  (index_label :: t_columns t) :: map (λ r, fst r :: snd r) (t_rows t).

Definition index_label (csv : list (list string)) : option string :=
  match csv with
  | (l :: _) :: _ => Some l
  | _ => None
  end.

Definition data_columns (csv : list (list string)) : list (list string) :=
  match csv with
  | [] => []
  | header :: _ =>
      map (λ j, map (λ line, nth j line "") csv) (seq 1 (length header - 1))
  end.

(** The line feed that ends each section title. *)
Definition newline : string := String (ascii_of_nat 10) EmptyString.

(** What [dump] sends to [fp]. *)
Inductive Chunk : Type :=
| Text (s : string)
| Table (csv : list (list string)).

Inductive IsaObject : Type :=
| AnInvestigation (i : Investigation)
| AStudy (s : Study)
| AnAssay (a : Assay).

(** Lines 315-334. *)
Definition ontology_source_reference_section (investigation : Investigation)
    : result (list Chunk) :=
  let ontology_source_references_df :=
    DataFrame_new ["Term Source Name"; "Term Source File"; "Term Source Version";
                   "Term Source Description"] in
  let i := 0 in
  '(df, i) ← for_in (ontology_source_references investigation)
    (λ '(df, i) ontology_source_reference,
       let df := loc_set df i [osr_name ontology_source_reference;
                               osr_file ontology_source_reference;
                               osr_version ontology_source_reference;
                               osr_description ontology_source_reference] in
       Ok (df, i + 1))
    (ontology_source_references_df, i);
  t ← set_index_T df "Term Source Name";
  Ok [Text ("ONTOLOGY SOURCE REFERENCE" +:+ newline); Table (to_csv t "Term Source Name")].

(** Lines 336-354. *)
Definition investigation_section (investigation : Investigation) : result (list Chunk) :=
  let investigation_df :=
    DataFrame_new ["Investigation Identifier"; "Investigation Title";
                   "Investigation Description"; "Investigation Submission Date";
                   "Investigation Public Release Date"] in
  let df := loc_set investigation_df 0
              [identifier investigation; title investigation; description investigation;
               submission_date investigation; public_release_date investigation] in
  t ← set_index_T df "Investigation Identifier";
  Ok [Text ("INVESTIGATION" +:+ newline); Table (to_csv t "Investigation Identifier")].

(** Lines 356-380. *)
Definition investigation_publications_section (investigation : Investigation)
    : result (list Chunk) :=
  let investigation_publications_df :=
    DataFrame_new ["Investigation PubMed ID"; "Investigation Publication DOI";
                   "Investigation Publication Author List";
                   "Investigation Publication Status";
                   "Investigation Publication Status Term Accession Number";
                   "Investigation Publication Status Term Source REF"] in
  let i := 0 in
  '(df, i) ← for_in (publications investigation)
    (λ '(df, i) investigation_publication,
       tsn ← term_source_name (term_source (status investigation_publication));
       let df := loc_set df i [pubmed_id investigation_publication;
                               doi investigation_publication;
                               author_list investigation_publication;
                               oa_name (status investigation_publication);
                               tsn;
                               term_accession (status investigation_publication)] in
       Ok (df, i + 1))
    (investigation_publications_df, i);
  t ← set_index_T df "Investigation PubMed ID";
  Ok [Text ("INVESTIGATION PUBLICATIONS" +:+ newline); Table (to_csv t "Investigation PubMed ID")].

(** The inner loop of lines 398-404. *)
Definition join_roles (rs : list OntologyAnnotation) : result (string * string * string) :=
  for_in rs
    (λ '(roles, roles_accession_numbers, roles_source_refs) role,
       let roles := roles +:+ (oa_name role +:+ ";") in
       let roles_accession_numbers :=
         roles_accession_numbers +:+ (term_accession role +:+ ";") in
       tsn ← term_source_name (term_source role);
       let roles_source_refs := roles_source_refs +:+ (tsn +:+ ";") in
       Ok (roles, roles_accession_numbers, roles_source_refs))
    ("", "", "").

(** Lines 382-421.  The loop never changes [i], and the table is written
    under the label of the publications section. *)
Definition investigation_contacts_section (investigation : Investigation)
    : result (list Chunk) :=
  let investigation_contacts_df :=
    DataFrame_new ["Investigation Person Last Name"; "Investigation Person First Name";
                   "Investigation Person Mid Initials"; "Investigation Person Email";
                   "Investigation Person Phone"; "Investigation Person Fax";
                   "Investigation Person Address"; "Investigation Person Affiliation";
                   "Investigation Person Roles";
                   "Investigation Person Roles Term Accession Number";
                   "Investigation Person Roles Term Source REF"] in
  let i := 0 in
  '(df, i) ← for_in (contacts investigation)
    (λ '(df, i) investigation_contact,
       '(roles, roles_accession_numbers, roles_source_refs) ←
         join_roles (roles investigation_contact);
       let df := loc_set df i [last_name investigation_contact;
                               first_name investigation_contact;
                               mid_initials investigation_contact;
                               email investigation_contact;
                               phone investigation_contact;
                               fax investigation_contact;
                               address investigation_contact;
                               affiliation investigation_contact;
                               roles; roles_accession_numbers; roles_source_refs] in
       Ok (df, i))
    (investigation_contacts_df, i);
  t ← set_index_T df "Investigation Person Last Name";
  Ok [Text ("INVESTIGATION CONTACTS" +:+ newline); Table (to_csv t "Investigation PubMed ID")].

(** [dump], lines 309-425; [fp] is the sequence of chunks written so far.
    A section that raises leaves the earlier sections written; the model
    returns the exception alone. *)
Definition dump (isa_obj : IsaObject) (fp : list Chunk) : result (list Chunk) :=
  match isa_obj with
  | AnInvestigation investigation =>
      s1 ← ontology_source_reference_section investigation;
      s2 ← investigation_section investigation;
      s3 ← investigation_publications_section investigation;
      s4 ← investigation_contacts_section investigation;
      Ok (fp ++ s1 ++ s2 ++ s3 ++ s4)
  | _ => Raise (NotImplementedError
                  "Dumping this ISA object to ISAtab is not yet supported")
  end.

(** The table of the INVESTIGATION CONTACTS section. *)
Definition contacts_table (investigation : Investigation) : result (list (list string)) :=
  s ← investigation_contacts_section investigation;
  match s with
  | [_; Table csv] => Ok csv
  | _ => Raise IndexError
  end.

(** ** Reference points for the statements *)

(** The annotation a (name, source, accession) triple stands for. *)
Definition annotation_of_triple (t : string * string * string) : OntologyAnnotation :=
  mkOntologyAnnotation t.1.1 (TermSourceRaw t.1.2) t.2.

(** The three parallel semicolon strings of a list of triples. *)
Definition joined_names (l : list (string * string * string)) : string :=
  str_join ";" (map (λ t, t.1.1) l).
Definition joined_sources (l : list (string * string * string)) : string :=
  str_join ";" (map (λ t, t.1.2) l).
Definition joined_accessions (l : list (string * string * string)) : string :=
  str_join ";" (map (λ t, t.2) l).

(** No component of the triple contains the separator. *)
Definition semicolon_free (t : string * string * string) : Prop :=
  contains_char ";" t.1.1 = false ∧ contains_char ";" t.1.2 = false
  ∧ contains_char ";" t.2 = false.

(** The annotation at position [i] of three token arrays. *)
Definition annotation_at (names srcs accs : list string) (i : nat) : OntologyAnnotation :=
  mkOntologyAnnotation (nth i names "") (TermSourceRaw (nth i srcs "")) (nth i accs "").

(** The loop body of [_createOntologyAnnotationsFromStringList] over its
    three token arrays, lines 159-164. *)
Definition assembler_step (names srcs accs : list string)
    (onto_annotations : list OntologyAnnotation) (i : nat)
    : result (list OntologyAnnotation) :=
  n ← list_getitem names i;
  s ← list_getitem srcs i;
  a ← list_getitem accs i;
  let onto_ann := mkOntologyAnnotation n (TermSourceRaw s) a in
  Ok (onto_annotations ++ [onto_ann]).

(** The number of tokens [split(";")] gives. *)
Definition token_count (s : string) : nat := length (str_split ";" s).

(** The record holds the three parallel strings under the three headers
    the assembler reads for the label [p + t]. *)
Definition holds_fields (object_ : record) (p t names srcs accs : string) : Prop :=
  object_ !! (p +:+ t) = Some names
  ∧ object_ !! ((p +:+ t) +:+ " Term Source REF") = Some srcs
  ∧ object_ !! ((p +:+ t) +:+ " Term Accession Number") = Some accs.

(** The round trip for one list of triples: on every record that holds
    the three joined strings, the assembler returns the list's
    annotations. *)
Definition assembler_reproduces (l : list (string * string * string)) : Prop :=
  ∀ (object_ : record) (p t : string),
    holds_fields object_ p t (joined_names l) (joined_sources l) (joined_accessions l) →
    _createOntologyAnnotationsFromStringList object_ p t = Ok (map annotation_of_triple l).

(** A record with the three protocol-parameter fields. *)
Definition parameter_record (names srcs accs : string) : record :=
  <["Study Protocol Parameters Name" := names]>
    (<["Study Protocol Parameters Name Term Source REF" := srcs]>
       (<["Study Protocol Parameters Name Term Accession Number" := accs]> ∅)).

(** The headers [load] reads from the investigation metadata, from each
    study's metadata and from each assay's metadata. *)
Definition investigation_required : list string :=
  ["Investigation Identifier"; "Investigation Title"; "Investigation Description";
   "Investigation Submission Date"; "Investigation Public Release Date"].

Definition study_required : list string :=
  ["Study Identifier"; "Study Title"; "Study Description"; "Study Submission Date";
   "Study Public Release Date"].

Definition assay_required : list string :=
  ["Study Assay File Name"; "Study Assay Measurement Type";
   "Study Assay Measurement Type Term Source REF";
   "Study Assay Measurement Type Term Accession Number";
   "Study Assay Technology Type"; "Study Assay Technology Type Term Source REF";
   "Study Assay Technology Type Term Accession Number";
   "Study Assay Technology Platform"].

(** A metadata mapping lacks one of the listed headers. *)
Definition lacks (m : record) (fields : list string) : Prop :=
  ∃ k, k ∈ fields ∧ m !! k = None.

(** The investigation metadata, some study or some assay lacks a
    required field. *)
Definition tree_lacks_required (t : IsaTab) : Prop :=
  lacks (metadata t) investigation_required
  ∨ ∃ s, s ∈ raw_studies t
         ∧ (lacks (study_metadata s) study_required
            ∨ ∃ a, a ∈ raw_assays s ∧ lacks (assay_metadata a) assay_required).

(** A parser that returns the given tree for every directory. *)
Definition parsed (t : IsaTab) : string → result (option IsaTab) := λ _, Ok (Some t).

(** A study with the given metadata and nothing else. *)
Definition bare_study (m : record) : RawStudy := mkRawStudy m [] [] [] [] [] [] [].

(** Investigation metadata with the five headers [load] reads. *)
Definition full_metadata : record :=
  <["Investigation Identifier" := "INV1"]>
    (<["Investigation Title" := "t"]>
       (<["Investigation Description" := "d"]>
          (<["Investigation Submission Date" := "2015"]>
             (<["Investigation Public Release Date" := "2016"]> ∅)))).

(** Study metadata with the five headers [_createStudies] reads. *)
Definition full_study_metadata : record :=
  <["Study Identifier" := "S1"]>
    (<["Study Title" := "t"]>
       (<["Study Description" := "d"]>
          (<["Study Submission Date" := "2015"]>
             (<["Study Public Release Date" := "2016"]> ∅)))).

(** A tree whose second study has no ['Study Identifier']. *)
Definition tree_missing_study_identifier : IsaTab :=
  mkIsaTab full_metadata [] [] []
    [bare_study full_study_metadata;
     bare_study (delete "Study Identifier" full_study_metadata)].

(** A tree with empty investigation metadata and one study without
    metadata. *)
Definition tree_without_metadata : IsaTab := mkIsaTab ∅ [] [] [] [bare_study ∅].

(** A tree whose investigation metadata has a title and nothing else. *)
Definition tree_title_only : IsaTab :=
  mkIsaTab {["Investigation Title" := "t"]} [] [] [] [].

(** What one input name contributes to [inputs]: the source-dictionary
    value if the name is a key there, then the sample-dictionary value if
    it is a key there. *)
Definition input_entries (source_dict : odict SourceItem) (sample_dict : odict SampleItem)
    (a : string) : list Material :=
  option_list (OfSource <$> od_get source_dict a)
  ++ option_list (OfSample <$> od_get sample_dict a).

(** The process record of one raw process node. *)
Definition linked_process (source_dict : odict SourceItem) (sample_dict : odict SampleItem)
    (pn : ProcessNode) : Process :=
  mkProcess ∅ [] (concat (map (input_entries source_dict sample_dict) (pn_inputs pn)))
            (omap (od_get sample_dict) (pn_outputs pn)).

(** A process node, a source and a sample that share the name ["x"]. *)
Definition shared_name_nodes : odict ProcessNode :=
  [("proc1", mkProcessNode None ["s0"; "x"; "m0"] ["x"; "s0"; "d0"; "m0"])].
Definition shared_name_sources : odict SourceItem :=
  [("s0", mkSourceItem "s0" []); ("x", mkSourceItem "x" [])].
Definition shared_name_samples : odict SampleItem :=
  [("x", mkSampleItem "x" [] []); ("m0", mkSampleItem "m0" [] [])].
Definition shared_name_data : odict Data :=
  [("d0", mkData "d0" "Raw Data File")].

(** A node graph with a source, a sample, a data file and a node of
    another kind. *)
Definition mixed_nodes : odict Node :=
  [("s1", mkNode "Source Name" "s1" [("Characteristics[organism]", "human")]);
   ("m1", mkNode "Sample Name" "m1" [("Factor Value[dose]", "1")]);
   ("d1", mkNode "Raw Data File" "d1" []);
   ("p1", mkNode "Protocol REF" "p1" [])].

(** An investigation with two contacts and nothing else. *)
Definition two_contacts : Investigation :=
  mkInvestigation "INV1" "" "" "" "" [] []
    [mkContact "Smith" "Ann" "" "" "" "" "" "" [];
     mkContact "Jones" "Bob" "" "" "" "" "" "" []]
    [].

(** What the ontology-source builder takes from one record. *)
Definition osr_of_record (r : record) (o : OntologySourceReference) : Prop :=
  r !! "Term Source Description" = Some (osr_description o)
  ∧ r !! "Term Source File" = Some (osr_file o)
  ∧ r !! "Term Source Name" = Some (osr_name o)
  ∧ r !! "Term Source Version" = Some (osr_version o).

(** What the contacts builder takes from one record under a scope
    prefix. *)
Definition contact_of_record (inv_or_study : string) (r : record) (c : Contact) : Prop :=
  r !! (inv_or_study +:+ " Person Last Name") = Some (last_name c)
  ∧ r !! (inv_or_study +:+ " Person First Name") = Some (first_name c)
  ∧ r !! (inv_or_study +:+ " Person Mid Initials") = Some (mid_initials c)
  ∧ r !! (inv_or_study +:+ " Person Email") = Some (email c)
  ∧ r !! (inv_or_study +:+ " Person Phone") = Some (phone c)
  ∧ r !! (inv_or_study +:+ " Person Fax") = Some (fax c)
  ∧ r !! (inv_or_study +:+ " Person Address") = Some (address c)
  ∧ r !! (inv_or_study +:+ " Person Affiliation") = Some (affiliation c)
  ∧ roles c = [].

(** What the protocols builder takes from one record. *)
Definition protocol_of_record (r : record) (p : Protocol) : Prop :=
  r !! "Study Protocol Name" = Some (prot_name p)
  ∧ _createOntologyAnnotationForInvOrStudy r "Study" " Protocol Type" = Ok (protocol_type p)
  ∧ r !! "Study Protocol Description" = Some (prot_description p)
  ∧ r !! "Study Protocol URI" = Some (uri p)
  ∧ r !! "Study Protocol Version" = Some (version p)
  ∧ _createProtocolParameterList r = Ok (prot_parameters p).

(** A label without square brackets. *)
Definition bracket_free (x : string) : Prop :=
  contains_char "[" x = false ∧ contains_char "]" x = false.

(** The column header of the characteristic labelled [x]. *)
Definition characteristics_header (x : string) : string :=
  "Characteristics[" +:+ (x +:+ "]").

(** A node with two characteristic columns. *)
Definition two_characteristics_node : Node :=
  mkNode "Source Name" "s1"
    [("Characteristics[organism]", "human"); ("Characteristics[strain]", "x")].

(** The names of the nodes of a graph that satisfy [P], in graph order. *)
Definition names_where (P : Node → bool) (nodes : odict Node) : list string :=
  od_keys (List.filter (λ kv, P kv.2) nodes).

(** What the assay builder makes of one raw assay: its three node
    dictionaries, the eight metadata fields, and the process sequence
    linked against the assay's own dictionaries. *)
Definition assay_of_raw (a : RawAssay) (j : Assay) : Prop :=
  ∃ source_dict sample_dict data_dict,
    _createSourcesDictionary (assay_nodes a) = Ok source_dict
    ∧ _createSampleDictionary (assay_nodes a) = Ok sample_dict
    ∧ _createDataFiles (assay_nodes a) = Ok data_dict
    ∧ assay_metadata a !! "Study Assay File Name" = Some (file_name j)
    ∧ assay_metadata a !! "Study Assay Measurement Type" = Some (oa_name (measurement_type j))
    ∧ (TermSourceRaw <$> assay_metadata a !! "Study Assay Measurement Type Term Source REF")
      = Some (term_source (measurement_type j))
    ∧ assay_metadata a !! "Study Assay Measurement Type Term Accession Number"
      = Some (term_accession (measurement_type j))
    ∧ assay_metadata a !! "Study Assay Technology Type" = Some (oa_name (technology_type j))
    ∧ (TermSourceRaw <$> assay_metadata a !! "Study Assay Technology Type Term Source REF")
      = Some (term_source (technology_type j))
    ∧ assay_metadata a !! "Study Assay Technology Type Term Accession Number"
      = Some (term_accession (technology_type j))
    ∧ assay_metadata a !! "Study Assay Technology Platform" = Some (technology_platform j)
    ∧ _createProcessSequence (assay_process_nodes a) source_dict sample_dict data_dict
      = Ok (assay_process_sequence j).

(** What the study builder makes of one raw study. *)
Definition study_of_raw (s : RawStudy) (st : Study) : Prop :=
  ∃ source_dict sample_dict data_dict,
    _createSourcesDictionary (study_nodes s) = Ok source_dict
    ∧ _createSampleDictionary (study_nodes s) = Ok sample_dict
    ∧ _createDataFiles (study_nodes s) = Ok data_dict
    ∧ study_metadata s !! "Study Identifier" = Some (study_identifier st)
    ∧ study_metadata s !! "Study Title" = Some (study_title st)
    ∧ study_metadata s !! "Study Description" = Some (study_description st)
    ∧ study_metadata s !! "Study Submission Date" = Some (study_submission_date st)
    ∧ study_metadata s !! "Study Public Release Date" = Some (study_public_release_date st)
    ∧ _createOntologyAnnotationListForInvOrStudy (raw_design_descriptors s) "Study"
        " Design Type" = Ok (design_descriptors st)
    ∧ study_pubs st = []
    ∧ _createContacts (raw_study_contacts s) "Study" = Ok (study_people st)
    ∧ _createProtocols (raw_protocols s) = Ok (protocols st)
    ∧ sources st = od_values source_dict
    ∧ samples st = od_values sample_dict
    ∧ _createProcessSequence (study_process_nodes s) source_dict sample_dict data_dict
      = Ok (process_sequence st)
    ∧ _createStudyAssaysList (raw_assays s) = Ok (assays st).



(** What [load] makes of a parsed tree. *)
Definition investigation_of_tree (t : IsaTab) (inv : Investigation) : Prop :=
  metadata t !! "Investigation Identifier" = Some (identifier inv)
  ∧ metadata t !! "Investigation Title" = Some (title inv)
  ∧ metadata t !! "Investigation Description" = Some (description inv)
  ∧ metadata t !! "Investigation Submission Date" = Some (submission_date inv)
  ∧ metadata t !! "Investigation Public Release Date" = Some (public_release_date inv)
  ∧ Forall2 osr_of_record (ontology_refs t) (ontology_source_references inv)
  ∧ publications inv = []
  ∧ Forall2 (contact_of_record "Investigation") (raw_contacts t) (contacts inv)
  ∧ Forall2 study_of_raw (raw_studies t) (studies inv).

(** A study with the metadata of [full_study_metadata] and the node
    graph [mixed_nodes]. *)
Definition study_with_nodes : RawStudy :=
  mkRawStudy full_study_metadata [] [] [] [] mixed_nodes [] [].

(** The annotation's term source is an ontology source reference, so
    that [term_source.name] can be read. *)
Definition source_resolved (a : OntologyAnnotation) : Prop :=
  ∃ r, term_source a = TermSourceRef r.

(** Every publication status and every contact role of the
    investigation has a resolved term source. *)
Definition sources_resolved (inv : Investigation) : Prop :=
  Forall (λ p, source_resolved (status p)) (publications inv)
  ∧ Forall (λ c, Forall source_resolved (roles c)) (contacts inv).

(** Rows numbered from [i] on, as a loop that increments its counter
    assigns them. *)
Fixpoint numbered {A} (cells : A → list string) (i : nat) (xs : list A)
    : list (nat * list string) :=
  match xs with
  | [] => []
  | x :: xs' => (i, cells x) :: numbered cells (S i) xs'
  end.

(** The table of the ONTOLOGY SOURCE REFERENCE section: one column per
    reference. *)
Definition osr_table (refs : list OntologySourceReference) : list (list string) :=
  [ "Term Source Name" :: map osr_name refs;
    "Term Source File" :: map osr_file refs;
    "Term Source Version" :: map osr_version refs;
    "Term Source Description" :: map osr_description refs ].

(** The table of the INVESTIGATION PUBLICATIONS section, given the names
    of the status term sources: one column per publication. *)
Definition publications_table (pubs : list Publication) (source_names : list string)
    : list (list string) :=
  [ "Investigation PubMed ID" :: map pubmed_id pubs;
    "Investigation Publication DOI" :: map doi pubs;
    "Investigation Publication Author List" :: map author_list pubs;
    "Investigation Publication Status" :: map (λ p, oa_name (status p)) pubs;
    "Investigation Publication Status Term Accession Number" :: source_names;
    "Investigation Publication Status Term Source REF"
      :: map (λ p, term_accession (status p)) pubs ].

(** A reference and a publication whose status refers to it. *)
Definition obi : OntologySourceReference := mkOntologySourceReference "d" "f" "OBI" "1".
Definition published : Publication :=
  mkPublication "123" "10.1/x" "A, B" "T" (mkOntologyAnnotation "published" (TermSourceRef obi) "acc1").

(** Strings each followed by a semicolon, one after the other. *)
Fixpoint terminated (l : list string) : string :=
  match l with
  | [] => ""
  | x :: l' => x +:+ String ";" (terminated l')
  end.

(** Two roles that refer to [obi]. *)
Definition two_roles : list OntologyAnnotation :=
  [mkOntologyAnnotation "author" (TermSourceRef obi) "a1";
   mkOntologyAnnotation "curator" (TermSourceRef obi) "a2"].

(** An entry of an input list is a value of the dictionary of its kind. *)
Definition from_dictionaries (source_dict : odict SourceItem) (sample_dict : odict SampleItem)
    (m : Material) : Prop :=
  match m with
  | OfSource s => s ∈ od_values source_dict
  | OfSample t => t ∈ od_values sample_dict
  end.

(** A computation that ends in an exception. *)
Definition raises {A} (m : result A) : Prop := ∃ e, m = Raise e.

(** * Properties *)

(** ** The result monad and loops *)

Lemma bind_Ok {A B} (f : A → result B) (a : A) : (Ok a ≫= f) = f a.
Proof. reflexivity. Qed.

Lemma bind_Raise {A B} (f : A → result B) (e : exn) : (Raise e ≫= f) = Raise e.
Proof. reflexivity. Qed.

Lemma bind_ok_inv {A B} (m : result A) (f : A → result B) (b : B) :
  (m ≫= f) = Ok b → ∃ a, m = Ok a ∧ f a = Ok b.
Proof. destruct m as [a|e]; [intros H; exists a; auto | discriminate]. Qed.

Lemma raises_bind_l {A B} (m : result A) (f : A → result B) :
  raises m → raises (m ≫= f).
Proof. intros [e ->]. exists e. reflexivity. Qed.

Lemma raises_bind_r {A B} (m : result A) (f : A → result B) :
  (∀ a, raises (f a)) → raises (m ≫= f).
Proof. intros H. destruct m as [a|e]; [apply H | exists e; reflexivity]. Qed.

Lemma raises_not_ok {A} (m : result A) (a : A) : raises m → m ≠ Ok a.
Proof. intros [e ->]. discriminate. Qed.

Lemma raises_getitem (d : record) (k : string) : d !! k = None → raises (getitem d k).
Proof. intros H. exists (KeyError k). unfold getitem. rewrite H. reflexivity. Qed.

Lemma for_in_app {A S} (xs ys : list A) (body : S → A → result S) (s : S) :
  for_in (xs ++ ys) body s = (for_in xs body s ≫= for_in ys body).
Proof.
  revert s. induction xs as [|x xs IH]; intros s; simpl; [reflexivity|].
  destruct (body s x) as [s'|e]; simpl; [apply IH | reflexivity].
Qed.

(** A loop whose body only appends elements computed from the item. *)
Lemma for_in_append {A B} (xs : list A) (body : list B → A → result (list B))
    (f : A → list B) (acc : list B) :
  (∀ acc x, x ∈ xs → body acc x = Ok (acc ++ f x)) →
  for_in xs body acc = Ok (acc ++ concat (map f xs)).
Proof.
  revert acc. induction xs as [|x xs IH]; intros acc H; simpl.
  - by rewrite app_nil_r.
  - rewrite H by left. rewrite bind_Ok, IH.
    + by rewrite <- app_assoc.
    + intros acc' y Hy. apply H. by right.
Qed.

(** A loop raises as soon as its body raises on one item from any state. *)
Lemma for_in_raises {A S} (xs : list A) (body : S → A → result S) (x : A) (s : S) :
  x ∈ xs → (∀ s, raises (body s x)) → raises (for_in xs body s).
Proof.
  intros Hin Hx. revert s. induction xs as [|y ys IH]; intros s.
  - by apply not_elem_of_nil in Hin.
  - simpl. apply elem_of_cons in Hin as [<-|Hin].
    + apply raises_bind_l, Hx.
    + apply raises_bind_r. intros s'. by apply IH.
Qed.

(** ** Strings *)

Example split_keeps_empty_tokens : str_split ";" "a;b;;c" = ["a"; "b"; ""; "c"].
Proof. reflexivity. Qed.

Example split_of_empty_string : str_split ";" "" = [""].
Proof. reflexivity. Qed.

Example join_then_split : str_split ";" (str_join ";" ["a"; "b"; ""; "c"]) = ["a"; "b"; ""; "c"].
Proof. reflexivity. Qed.

Example endswith_data_file :
  endswith "Raw Data File" "Data File" = true ∧ endswith "File" "Data File" = false
  ∧ endswith "Source Name" "Data File" = false.
Proof. repeat split. Qed.

Example characteristic_label :
  list_last (str_split "[" (str_remove "]" "Characteristics[organism]")) = Ok "organism".
Proof. reflexivity. Qed.

Lemma str_split_nonempty (sep : ascii) (s : string) : str_split sep s ≠ [].
Proof.
  destruct s as [|c s]; simpl; [discriminate|].
  destruct (decide (c = sep)); [discriminate|].
  destruct (str_split sep s); discriminate.
Qed.

Lemma str_split_free (sep : ascii) (s : string) :
  contains_char sep s = false → str_split sep s = [s].
Proof.
  induction s as [|c s IH]; simpl; [reflexivity|].
  intros H. apply orb_false_iff in H as [Hc Hs].
  apply bool_decide_eq_false in Hc.
  destruct (decide (c = sep)); [done|]. by rewrite IH.
Qed.

Lemma str_split_append (sep : ascii) (s rest : string) :
  contains_char sep s = false →
  str_split sep (s +:+ String sep rest) = s :: str_split sep rest.
Proof.
  induction s as [|c s IH]; simpl.
  - intros _. destruct (decide (sep = sep)); [reflexivity | done].
  - intros H. apply orb_false_iff in H as [Hc Hs].
    apply bool_decide_eq_false in Hc.
    destruct (decide (c = sep)); [done|]. by rewrite IH.
Qed.

Lemma str_split_join (sep : ascii) (l : list string) :
  l ≠ [] → Forall (λ x, contains_char sep x = false) l →
  str_split sep (str_join sep l) = l.
Proof.
  induction l as [|x l IH]; [done|]. intros _ Hall.
  apply Forall_cons in Hall as [Hx Hl].
  destruct l as [|y l].
  - simpl. by apply str_split_free.
  - change (str_join sep (x :: y :: l)) with (x +:+ String sep (str_join sep (y :: l))).
    rewrite str_split_append by done. f_equal. by apply IH.
Qed.

(** ** Publications builder *)

(** C1 (evaluating the code): whatever records it is given, under either
    scope prefix, the publications builder returns the empty list: the
    records are never read, because the parameter is rebound to an empty
    list before the loop.  The claim asks for one Publication per record. *)
Theorem createPublications_always_empty (pubs : list record) (inv_or_study : string) :
  _createPublications pubs inv_or_study = Ok [].
Proof. reflexivity. Qed.

(** ** Annotation assembler *)

Section assembler_loop.
Variables names srcs accs : list string.

Lemma list_getitem_lt {A} (l : list A) (i : nat) (d : A) :
  (i < length l)%nat → list_getitem l i = Ok (nth i l d).
Proof.
  intros H. unfold list_getitem.
  destruct (l !! i) as [x|] eqn:E.
  - f_equal. symmetry. by apply nth_lookup_Some with (d := d).
  - apply lookup_ge_None in E. lia.
Qed.

Lemma list_getitem_ge {A} (l : list A) (i : nat) :
  (length l ≤ i)%nat → list_getitem l i = Raise IndexError.
Proof.
  intros H. unfold list_getitem. by rewrite (proj2 (lookup_ge_None l i) H).
Qed.

Lemma assembler_step_ok (k : nat) (acc : list OntologyAnnotation) :
  (k < length names)%nat → (k < length srcs)%nat → (k < length accs)%nat →
  assembler_step names srcs accs acc k = Ok (acc ++ [annotation_at names srcs accs k]).
Proof.
  intros Hn Hs Ha. unfold assembler_step.
  rewrite (list_getitem_lt names k "") by lia.
  rewrite (list_getitem_lt srcs k "") by lia.
  rewrite (list_getitem_lt accs k "") by lia.
  reflexivity.
Qed.

Lemma assembler_step_fail (k : nat) (acc : list OntologyAnnotation) :
  (k < length names)%nat → (length srcs ≤ k)%nat ∨ (length accs ≤ k)%nat →
  assembler_step names srcs accs acc k = Raise IndexError.
Proof.
  intros Hn Hlt. unfold assembler_step.
  rewrite (list_getitem_lt names k "") by lia. rewrite bind_Ok.
  destruct (decide (k < length srcs)%nat) as [Hks|Hks].
  - rewrite (list_getitem_lt srcs k "") by lia. rewrite bind_Ok.
    rewrite (list_getitem_ge accs k) by lia. reflexivity.
  - rewrite (list_getitem_ge srcs k) by lia. reflexivity.
Qed.

Lemma assembler_loop_ok (m k : nat) (acc : list OntologyAnnotation) :
  (k + m ≤ length names)%nat → (k + m ≤ length srcs)%nat → (k + m ≤ length accs)%nat →
  for_in (seq k m) (assembler_step names srcs accs) acc
  = Ok (acc ++ map (annotation_at names srcs accs) (seq k m)).
Proof.
  revert k acc. induction m as [|m IH]; intros k acc Hn Hs Ha; cbn [seq for_in map].
  - by rewrite app_nil_r.
  - rewrite assembler_step_ok by lia. rewrite bind_Ok.
    rewrite IH by lia. by rewrite <- app_assoc.
Qed.

Lemma assembler_loop_fail (m k : nat) (acc : list OntologyAnnotation) :
  (k ≤ length srcs)%nat → (k ≤ length accs)%nat → (k + m ≤ length names)%nat →
  (length srcs < k + m)%nat ∨ (length accs < k + m)%nat →
  for_in (seq k m) (assembler_step names srcs accs) acc = Raise IndexError.
Proof.
  revert k acc. induction m as [|m IH]; intros k acc Hs Ha Hn Hlt; cbn [seq for_in].
  - lia.
  - destruct (decide (k < length srcs ∧ k < length accs)%nat) as [[Hks Hka]|Hno].
    + rewrite assembler_step_ok by lia. rewrite bind_Ok. apply IH; lia.
    + rewrite assembler_step_fail by lia. reflexivity.
Qed.
End assembler_loop.

(** The assembler on a record that has the three fields. *)
Lemma assembler_unfold (object_ : record) (p t names srcs accs : string) :
  object_ !! (p +:+ t) = Some names →
  object_ !! ((p +:+ t) +:+ " Term Source REF") = Some srcs →
  object_ !! ((p +:+ t) +:+ " Term Accession Number") = Some accs →
  _createOntologyAnnotationsFromStringList object_ p t
  = for_in (seq 0 (length (str_split ";" names)))
      (assembler_step (str_split ";" names) (str_split ";" srcs) (str_split ";" accs))
      [].
Proof.
  intros Hn Hs Ha. unfold _createOntologyAnnotationsFromStringList, getitem.
  rewrite Hn, Hs, Ha. reflexivity.
Qed.

Lemma map_nth_seq {A B} (f : A → B) (l : list A) (d : A) :
  map (λ i, f (nth i l d)) (seq 0 (length l)) = map f l.
Proof.
  induction l as [|x l IH]; simpl; [reflexivity|].
  f_equal. rewrite <- seq_shift, map_map. exact IH.
Qed.

Lemma nth_map_lt {A B} (f : A → B) (l : list A) (i : nat) (d : A) (d' : B) :
  (i < length l)%nat → nth i (map f l) d' = f (nth i l d).
Proof.
  revert i. induction l as [|x l IH]; intros [|i] H; simpl in *; try lia; [reflexivity|].
  apply IH. lia.
Qed.

Lemma annotation_at_triples (l : list (string * string * string)) :
  map (annotation_at (map (λ t, t.1.1) l) (map (λ t, t.1.2) l) (map (λ t, t.2) l))
      (seq 0 (length l))
  = map annotation_of_triple l.
Proof.
  rewrite <- (map_nth_seq annotation_of_triple l ("", "", "")).
  apply map_ext_in. intros i Hi. apply in_seq in Hi.
  unfold annotation_at, annotation_of_triple.
  rewrite !(nth_map_lt _ l i ("", "", "")) by lia. reflexivity.
Qed.

Lemma parameter_record_holds (names srcs accs : string) :
  holds_fields (parameter_record names srcs accs) "Study" " Protocol Parameters Name"
    names srcs accs.
Proof. repeat split; reflexivity. Qed.

Lemma assembler_on_arrays (object_ : record) (p t names srcs accs : string) :
  holds_fields object_ p t names srcs accs →
  _createOntologyAnnotationsFromStringList object_ p t
  = if decide (token_count names ≤ token_count srcs ∧ token_count names ≤ token_count accs)%nat
    then Ok (map (annotation_at (str_split ";" names) (str_split ";" srcs)
                    (str_split ";" accs))
               (seq 0 (token_count names)))
    else Raise IndexError.
Proof.
  intros (Hn & Hs & Ha). rewrite (assembler_unfold _ _ _ _ _ _ Hn Hs Ha).
  unfold token_count. case_decide as Hle.
  - rewrite assembler_loop_ok by (simpl; lia). reflexivity.
  - apply assembler_loop_fail; simpl; lia.
Qed.

(** C2 (as amended): for every non-empty ordered list of (name, source,
    accession) triples none of whose components contains a semicolon,
    the assembler run on a record holding the three semicolon-joined
    strings returns exactly the list's annotations, in order. *)
Theorem annotation_roundtrip (l : list (string * string * string)) :
  l ≠ [] → Forall semicolon_free l → assembler_reproduces l.
Proof.
  intros Hne Hfree object_ p t Hf.
  rewrite (assembler_on_arrays _ _ _ _ _ _ Hf).
  assert (Hsplit : ∀ f : string * string * string → string,
            (∀ x, semicolon_free x → contains_char ";" (f x) = false) →
            str_split ";" (str_join ";" (map f l)) = map f l).
  { intros f Hf'. apply str_split_join.
    - destruct l; [done | discriminate].
    - apply Forall_map. eapply Forall_impl; [exact Hfree | exact Hf']. }
  unfold token_count, joined_names, joined_sources, joined_accessions.
  rewrite (Hsplit (λ x, x.1.1)) by (intros x Hx; apply Hx).
  rewrite (Hsplit (λ x, x.1.2)) by (intros x Hx; apply Hx).
  rewrite (Hsplit (λ x, x.2)) by (intros x Hx; apply Hx).
  rewrite !length_map. case_decide as Hle; [|lia].
  by rewrite annotation_at_triples.
Qed.

Lemma annotation_roundtrip_witness :
  _createOntologyAnnotationsFromStringList (parameter_record "a;b" "x;y" "p;q")
    "Study" " Protocol Parameters Name"
  = Ok [mkOntologyAnnotation "a" (TermSourceRaw "x") "p";
        mkOntologyAnnotation "b" (TermSourceRaw "y") "q"].
Proof.
  apply (annotation_roundtrip [("a", "x", "p"); ("b", "y", "q")]).
  - discriminate.
  - repeat constructor.
  - apply parameter_record_holds.
Defined.

(** C2 fails as stated: the empty list joins into three empty strings,
    from which the assembler builds one annotation with empty fields; and
    a name containing a semicolon is split in two, so the shorter source
    array is indexed out of range. *)
Lemma annotation_roundtrip_counterexample :
  ¬ assembler_reproduces [] ∧ ¬ assembler_reproduces [("a;b", "x", "y")].
Proof.
  split; intros H.
  - specialize (H (parameter_record "" "" "") "Study" " Protocol Parameters Name"
                  (parameter_record_holds _ _ _)).
    vm_compute in H. discriminate H.
  - specialize (H (parameter_record "a;b" "x" "y") "Study" " Protocol Parameters Name"
                  (parameter_record_holds _ _ _)).
    vm_compute in H. discriminate H.
Qed.

(** C3 (as amended): on a record holding the three fields, the assembler
    fails with an index-out-of-range fault exactly when the term-source
    or the term-accession field has fewer tokens than the name field; it
    succeeds exactly when both have at least as many, and then returns
    one annotation per token of the name field, built from the tokens at
    the same position (surplus source and accession tokens are ignored). *)
Theorem assembler_arity (object_ : record) (p t names srcs accs : string) :
  holds_fields object_ p t names srcs accs →
  let r := _createOntologyAnnotationsFromStringList object_ p t in
  (r = Raise IndexError
   ↔ (token_count srcs < token_count names ∨ token_count accs < token_count names)%nat)
  ∧ ((∃ l, r = Ok l)
     ↔ (token_count names ≤ token_count srcs ∧ token_count names ≤ token_count accs)%nat)
  ∧ (∀ l, r = Ok l →
       length l = token_count names
       ∧ l = map (annotation_at (str_split ";" names) (str_split ";" srcs)
                    (str_split ";" accs))
               (seq 0 (token_count names))).
Proof.
  intros Hf r. subst r. rewrite (assembler_on_arrays _ _ _ _ _ _ Hf).
  case_decide as Hle; (split; [|split]).
  - split; [discriminate | lia].
  - split; [intros _; exact Hle | intros _; eexists; reflexivity].
  - intros l Hl. injection Hl as <-. by rewrite length_map, length_seq.
  - split; [intros _; lia | reflexivity].
  - split; [intros [l Hl]; discriminate | done].
  - discriminate.
Qed.

Lemma assembler_arity_witness :
  (∃ l, _createOntologyAnnotationsFromStringList (parameter_record "a;b" "x;y;z" "p;q")
          "Study" " Protocol Parameters Name" = Ok l)
  ↔ (token_count "a;b" ≤ token_count "x;y;z" ∧ token_count "a;b" ≤ token_count "p;q")%nat.
Proof.
  exact (proj1 (proj2 (assembler_arity _ _ _ _ _ _
                         (parameter_record_holds "a;b" "x;y;z" "p;q")))).
Defined.

(** C3 fails as stated: three fields with pairwise different token counts
    (1, 2 and 3) on which the assembler succeeds, because the name field
    is the shortest. *)
Lemma assembler_arity_counterexample :
  token_count "a" ≠ token_count "x;y" ∧ token_count "a" ≠ token_count "p;q;r"
  ∧ token_count "x;y" ≠ token_count "p;q;r"
  ∧ _createOntologyAnnotationsFromStringList (parameter_record "a" "x;y" "p;q;r")
      "Study" " Protocol Parameters Name"
    = Ok [mkOntologyAnnotation "a" (TermSourceRaw "x") "p"].
Proof. repeat split; try (vm_compute; discriminate). Qed.

(** ** Graph assembler *)

(** Closes a goal [raises m] where [m] is a chain of binds one of whose
    steps is known to raise. *)
Ltac find_raise :=
  cbv beta;
  first [ solve [ apply raises_bind_l; eauto using raises_getitem ]
        | apply raises_bind_r; intros ?; find_raise ].

Lemma lacks_inv (m : record) (fields : list string) (P : Prop) :
  lacks m fields → Forall (λ k, m !! k = None → P) fields → P.
Proof.
  intros (k & Hin & Hk) Hall. rewrite Forall_forall in Hall. exact (Hall k Hin Hk).
Qed.

Lemma assays_raise (assays : list RawAssay) (a : RawAssay) :
  a ∈ assays → lacks (assay_metadata a) assay_required →
  raises (_createStudyAssaysList assays).
Proof.
  intros Hin Hl. unfold _createStudyAssaysList.
  apply (for_in_raises _ _ a); [exact Hin|]. intros acc.
  apply (lacks_inv _ _ _ Hl).
  repeat (apply Forall_cons; split; [intros Hk; find_raise|]). constructor.
Qed.

Lemma studies_raise (studies : list RawStudy) (s : RawStudy) :
  s ∈ studies →
  lacks (study_metadata s) study_required
  ∨ (∃ a, a ∈ raw_assays s ∧ lacks (assay_metadata a) assay_required) →
  raises (_createStudies studies).
Proof.
  intros Hin H. unfold _createStudies.
  apply (for_in_raises _ _ s); [exact Hin|]. intros acc.
  destruct H as [Hl | (a & Ha & Hl)].
  - apply (lacks_inv _ _ _ Hl).
    repeat (apply Forall_cons; split; [intros Hk; find_raise|]). constructor.
  - pose proof (assays_raise _ _ Ha Hl) as Hr.
    find_raise.
Qed.

Lemma load_tree_raises (t : IsaTab) :
  metadata t ≠ ∅ → tree_lacks_required t → raises (load_tree (Some t)).
Proof.
  intros Hne H. unfold load_tree. rewrite bool_decide_eq_true_2 by exact Hne.
  destruct H as [Hl | (s & Hs & H)].
  - apply (lacks_inv _ _ _ Hl).
    repeat (apply Forall_cons; split; [intros Hk; find_raise|]). constructor.
  - pose proof (studies_raise _ _ Hs H) as Hr.
    find_raise.
Qed.

Lemma load_tree_empty (t : IsaTab) : metadata t = ∅ → load_tree (Some t) = Ok None.
Proof.
  intros He. unfold load_tree. by rewrite bool_decide_eq_false_2 by (by intros []).
Qed.

Lemma load_tree_nonempty (t : IsaTab) :
  metadata t ≠ ∅ → load_tree (Some t) ≠ Ok None.
Proof.
  intros Hne H. unfold load_tree in H. rewrite bool_decide_eq_true_2 in H by exact Hne.
  repeat (apply bind_ok_inv in H as (? & _ & H)). discriminate H.
Qed.

(** C4 (as amended): for every raw parse tree whose investigation
    metadata mapping is not empty and in which the investigation
    metadata, a study or an assay lacks a required field, [load] fails
    with an error and returns nothing, neither a partial Investigation
    nor the absent result. *)
Theorem load_atomic_failure (parse : string → result (option IsaTab))
    (isatab_dir : string) (t : IsaTab) :
  parse isatab_dir = Ok (Some t) → metadata t ≠ ∅ → tree_lacks_required t →
  raises (load parse isatab_dir) ∧ ∀ r, load parse isatab_dir ≠ Ok r.
Proof.
  intros Hp Hne Hl. unfold load. rewrite Hp, bind_Ok.
  pose proof (load_tree_raises t Hne Hl) as Hr.
  split; [exact Hr | intros r; by apply raises_not_ok].
Qed.

Lemma load_atomic_failure_witness :
  raises (load (parsed tree_missing_study_identifier) "dir")
  ∧ ∀ r, load (parsed tree_missing_study_identifier) "dir" ≠ Ok r.
Proof.
  apply (load_atomic_failure _ _ tree_missing_study_identifier).
  - reflexivity.
  - apply insert_non_empty.
  - right. exists (bare_study (delete "Study Identifier" full_study_metadata)). split.
    + apply list_elem_of_further, list_elem_of_here.
    + left. exists "Study Identifier". split; [apply list_elem_of_here | reflexivity].
Defined.

(** C4 fails as stated: a study without ['Study Identifier'] under empty
    investigation metadata; [load] returns the absent result and raises
    nothing. *)
Lemma load_atomic_failure_counterexample :
  tree_lacks_required tree_without_metadata
  ∧ load (parsed tree_without_metadata) "dir" = Ok None
  ∧ ¬ raises (load (parsed tree_without_metadata) "dir").
Proof.
  split; [|split].
  - left. exists "Investigation Identifier". split; [apply list_elem_of_here | reflexivity].
  - reflexivity.
  - intros [e He]. discriminate He.
Qed.

(** C5 (as amended): for every successfully parsed raw tree, [load]
    returns the absent result without raising exactly when the
    investigation metadata mapping is empty; an Investigation is returned
    only when the mapping is non-empty (a non-empty mapping gives an
    Investigation or an error, never the absent result). *)
Theorem load_absent_iff_empty (parse : string → result (option IsaTab))
    (isatab_dir : string) (t : IsaTab) :
  parse isatab_dir = Ok (Some t) →
  (load parse isatab_dir = Ok None ↔ metadata t = ∅)
  ∧ (∀ inv, load parse isatab_dir = Ok (Some inv) → metadata t ≠ ∅).
Proof.
  intros Hp. unfold load. rewrite Hp, bind_Ok. split.
  - split.
    + intros H. destruct (decide (metadata t = ∅)) as [|Hne]; [done|].
      by destruct (load_tree_nonempty t Hne).
    + apply load_tree_empty.
  - intros inv H He. rewrite (load_tree_empty t He) in H. discriminate H.
Qed.

Lemma load_absent_iff_empty_witness :
  (load (parsed tree_without_metadata) "dir" = Ok None
   ↔ metadata tree_without_metadata = ∅)
  ∧ (∀ inv, load (parsed tree_without_metadata) "dir" = Ok (Some inv) →
            metadata tree_without_metadata ≠ ∅).
Proof. apply (load_absent_iff_empty _ _ tree_without_metadata). reflexivity. Defined.

(** C5 fails as stated: a non-empty metadata mapping without
    ['Investigation Identifier']; no Investigation is constructed, [load]
    raises the key-lookup error. *)
Lemma load_absent_iff_empty_counterexample :
  metadata tree_title_only ≠ ∅
  ∧ load (parsed tree_title_only) "dir" = Raise (KeyError "Investigation Identifier").
Proof.
  split.
  - apply insert_non_empty.
  - reflexivity.
Qed.

(** ** Process sequence linker *)

Lemma od_get_keys {V} (d : odict V) (k : string) :
  k ∈ od_keys d ↔ is_Some (od_get d k).
Proof.
  induction d as [|[k' v] d IH]; simpl.
  - split; [intros H; by apply not_elem_of_nil in H | intros [? ?]; discriminate].
  - rewrite elem_of_cons. destruct (decide (k' = k)) as [->|Hne].
    + split; [intros _; by eexists | by left].
    + rewrite <- IH. split; [intros [->|?]; done | by right].
Qed.

Lemma concat_singletons {A B} (f : A → list B) (g : A → B) (l : list A) :
  (∀ x, x ∈ l → f x = [g x]) → concat (map f l) = map g l.
Proof.
  induction l as [|x l IH]; intros H; simpl; [reflexivity|].
  rewrite H by left. simpl. f_equal. apply IH. intros y Hy. apply H. by right.
Qed.

Lemma concat_option_list {A B} (g : A → option B) (l : list A) :
  concat (map (λ x, option_list (g x)) l) = omap g l.
Proof.
  induction l as [|x l IH]; simpl; [reflexivity|].
  rewrite IH. by destruct (g x).
Qed.

Lemma createInputList_eq (l : list string) (source_dict : odict SourceItem)
    (sample_dict : odict SampleItem) :
  _createInputList l source_dict sample_dict
  = Ok (concat (map (input_entries source_dict sample_dict) l)).
Proof.
  unfold _createInputList. rewrite (for_in_append _ _ (input_entries source_dict sample_dict)).
  - reflexivity.
  - intros acc x _. unfold input_entries, od_getitem.
    destruct (od_get source_dict x), (od_get sample_dict x); simpl;
      rewrite <- ?app_assoc, ?app_nil_r; reflexivity.
Qed.

Lemma createOutputList_eq (l : list string) (sample_dict : odict SampleItem) :
  _createOutputList l sample_dict = Ok (omap (od_get sample_dict) l).
Proof.
  unfold _createOutputList.
  rewrite (for_in_append _ _ (λ x, option_list (od_get sample_dict x))).
  - by rewrite concat_option_list.
  - intros acc x _. unfold od_getitem.
    destruct (od_get sample_dict x); simpl; rewrite ?app_nil_r; reflexivity.
Qed.

Lemma createProcessSequence_eq (process_nodes : odict ProcessNode)
    (source_dict : odict SourceItem) (sample_dict : odict SampleItem)
    (data_dict : odict Data) :
  _createProcessSequence process_nodes source_dict sample_dict data_dict
  = Ok (map (λ name, linked_process source_dict sample_dict
                       (default (mkProcessNode None [] []) (od_get process_nodes name)))
          (od_keys process_nodes)).
Proof.
  unfold _createProcessSequence.
  rewrite (for_in_append _ _
    (λ name, [linked_process source_dict sample_dict
                (default (mkProcessNode None [] []) (od_get process_nodes name))])).
  - simpl. f_equal. by apply concat_singletons.
  - intros acc name Hin. apply od_get_keys in Hin as [pn Hpn].
    unfold od_getitem. rewrite Hpn. simpl.
    rewrite createInputList_eq, createOutputList_eq. reflexivity.
Qed.

Lemma createProcessSequence_lookup (process_nodes : odict ProcessNode)
    (source_dict : odict SourceItem) (sample_dict : odict SampleItem)
    (data_dict : odict Data) (i : nat) (name : string) (pn : ProcessNode) :
  od_keys process_nodes !! i = Some name → od_get process_nodes name = Some pn →
  ∃ procs, _createProcessSequence process_nodes source_dict sample_dict data_dict = Ok procs
           ∧ length procs = length process_nodes
           ∧ procs !! i = Some (linked_process source_dict sample_dict pn).
Proof.
  intros Hi Hpn. rewrite createProcessSequence_eq. eexists. split; [reflexivity|]. split.
  - unfold od_keys. by rewrite !length_map.
  - change (map ?f ?l) with (f <$> l) at 1.
    rewrite list_lookup_fmap, Hi. simpl. by rewrite Hpn.
Qed.

(** C7: for a process node and an input name that is a key of both the
    source dictionary and the sample dictionary, the process's [inputs]
    holds, at the place of that name, the source-dictionary value
    followed by the sample-dictionary value, between what the names
    before it and the names after it contribute. *)
Theorem inputs_fan_out (process_nodes : odict ProcessNode)
    (source_dict : odict SourceItem) (sample_dict : odict SampleItem)
    (data_dict : odict Data) (i : nat) (name : string) (pn : ProcessNode)
    (before after : list string) (a : string) (s : SourceItem) (t : SampleItem) :
  od_keys process_nodes !! i = Some name → od_get process_nodes name = Some pn →
  pn_inputs pn = before ++ a :: after →
  od_get source_dict a = Some s → od_get sample_dict a = Some t →
  ∃ procs p r1 r2,
    _createProcessSequence process_nodes source_dict sample_dict data_dict = Ok procs
    ∧ procs !! i = Some p
    ∧ _createInputList before source_dict sample_dict = Ok r1
    ∧ _createInputList after source_dict sample_dict = Ok r2
    ∧ inputs p = r1 ++ [OfSource s; OfSample t] ++ r2.
Proof.
  intros Hi Hpn Hin Hs Ht.
  destruct (createProcessSequence_lookup _ source_dict sample_dict data_dict _ _ _ Hi Hpn)
    as (procs & Hp & _ & Hl).
  exists procs, (linked_process source_dict sample_dict pn).
  eexists. eexists. rewrite !createInputList_eq.
  repeat split; [exact Hp | exact Hl |].
  simpl. rewrite Hin, map_app, concat_app. simpl.
  unfold input_entries at 2. rewrite Hs, Ht. reflexivity.
Qed.

Lemma inputs_fan_out_witness :
  ∃ procs p r1 r2,
    _createProcessSequence shared_name_nodes shared_name_sources shared_name_samples
      shared_name_data = Ok procs
    ∧ procs !! 0 = Some p
    ∧ _createInputList ["s0"] shared_name_sources shared_name_samples = Ok r1
    ∧ _createInputList ["m0"] shared_name_sources shared_name_samples = Ok r2
    ∧ inputs p = r1 ++ [OfSource (mkSourceItem "x" []); OfSample (mkSampleItem "x" [] [])]
                 ++ r2.
Proof.
  apply (inputs_fan_out shared_name_nodes shared_name_sources shared_name_samples
           shared_name_data 0 "proc1"
           (mkProcessNode None ["s0"; "x"; "m0"] ["x"; "s0"; "d0"; "m0"])
           ["s0"] ["m0"] "x"); reflexivity.
Defined.

(** C8: for every process node, the process's [outputs] is exactly the
    list of sample-dictionary values of the output names that are keys of
    the sample dictionary, in output-name order; the source and data
    dictionaries play no part, and the output list is always produced
    (a name that is not a sample key raises nothing). *)
Theorem outputs_from_sample_dictionary (process_nodes : odict ProcessNode)
    (source_dict : odict SourceItem) (sample_dict : odict SampleItem)
    (data_dict : odict Data) (i : nat) (name : string) (pn : ProcessNode) :
  od_keys process_nodes !! i = Some name → od_get process_nodes name = Some pn →
  ∃ procs p,
    _createProcessSequence process_nodes source_dict sample_dict data_dict = Ok procs
    ∧ procs !! i = Some p
    ∧ _createOutputList (pn_outputs pn) sample_dict = Ok (outputs p)
    ∧ outputs p = omap (od_get sample_dict) (pn_outputs pn).
Proof.
  intros Hi Hpn.
  destruct (createProcessSequence_lookup _ source_dict sample_dict data_dict _ _ _ Hi Hpn)
    as (procs & Hp & _ & Hl).
  exists procs, (linked_process source_dict sample_dict pn).
  rewrite createOutputList_eq. repeat split; [exact Hp | exact Hl].
Qed.

Lemma outputs_from_sample_dictionary_witness :
  ∃ procs p,
    _createProcessSequence shared_name_nodes shared_name_sources shared_name_samples
      shared_name_data = Ok procs
    ∧ procs !! 0 = Some p
    ∧ _createOutputList ["x"; "s0"; "d0"; "m0"] shared_name_samples = Ok (outputs p)
    ∧ outputs p = omap (od_get shared_name_samples) ["x"; "s0"; "d0"; "m0"].
Proof.
  apply (outputs_from_sample_dictionary shared_name_nodes shared_name_sources
           shared_name_samples shared_name_data 0 "proc1"
           (mkProcessNode None ["s0"; "x"; "m0"] ["x"; "s0"; "d0"; "m0"])); reflexivity.
Defined.

Example outputs_skip_source_and_data :
  _createOutputList ["x"; "s0"; "d0"; "m0"] shared_name_samples
  = Ok [mkSampleItem "x" [] []; mkSampleItem "m0" [] []].
Proof. reflexivity. Qed.

(** ** Node dictionaries *)

Lemma od_keys_update {V} (d : odict V) (k k' : string) (v : V) :
  k' ∈ od_keys (od_update d k v) ↔ k' = k ∨ k' ∈ od_keys d.
Proof.
  induction d as [|[k0 v0] d IH]; simpl.
  - rewrite elem_of_cons. split; [intros [?|H]; [by left | by apply not_elem_of_nil in H]|].
    intros [?|H]; [by left | by apply not_elem_of_nil in H].
  - destruct (decide (k0 = k)) as [->|Hne]; simpl; rewrite !elem_of_cons.
    + tauto.
    + unfold od_keys in IH. rewrite IH. tauto.
Qed.

Lemma for_in_total {A S} (xs : list A) (body : S → A → result S) (s : S) :
  (∀ s x, ∃ s', body s x = Ok s') → ∃ s', for_in xs body s = Ok s'.
Proof.
  intros H. revert s. induction xs as [|x xs IH]; intros s; simpl; [by eexists|].
  destruct (H s x) as [s' ->]. rewrite bind_Ok. apply IH.
Qed.

Lemma list_last_split (sep : ascii) (s : string) :
  ∃ t, list_last (str_split sep s) = Ok t.
Proof.
  unfold list_last. destruct (last (str_split sep s)) as [t|] eqn:E; [by eexists|].
  apply last_None in E. by destruct (str_split_nonempty sep s).
Qed.

Lemma createCharacteristicList_total (node_name : string) (node : Node) :
  ∃ cs, _createCharacteristicList node_name node = Ok cs.
Proof.
  unfold _createCharacteristicList. apply for_in_total. intros acc header.
  destruct (startswith header "Characteristics"); [|by eexists].
  destruct (list_last_split "[" (str_remove "]" header)) as [t ->]. by eexists.
Qed.

(** A loop that adds to a dictionary the keys of [nodes] whose node
    satisfies [P], and only those. *)
Lemma dictionary_loop {V} (nodes : odict Node) (P : Node → bool)
    (body : odict V → string → result (odict V)) :
  (∀ d k n, od_get nodes k = Some n →
     ∃ d', body d k = Ok d' ∧ if P n then ∃ v, d' = od_update d k v else d' = d) →
  ∀ ks d, (∀ k, k ∈ ks → k ∈ od_keys nodes) →
    ∃ d', for_in ks body d = Ok d'
          ∧ ∀ k, k ∈ od_keys d'
                 ↔ k ∈ od_keys d ∨ (k ∈ ks ∧ ∃ n, od_get nodes k = Some n ∧ P n = true).
Proof.
  intros Hbody ks. induction ks as [|k0 ks IH]; intros d Hks; simpl.
  - exists d. split; [reflexivity|]. intros k. split; [by left|].
    intros [?|[H _]]; [done | by apply not_elem_of_nil in H].
  - assert (Hk0 : k0 ∈ od_keys nodes) by (apply Hks; left).
    apply od_get_keys in Hk0 as [n0 Hn0].
    destruct (Hbody d k0 n0 Hn0) as (d1 & Hd1 & Hcase). rewrite Hd1, bind_Ok.
    destruct (IH d1) as (d' & Hd' & Hkeys); [intros k Hk; apply Hks; by right|].
    exists d'. split; [exact Hd'|]. intros k. rewrite Hkeys, elem_of_cons.
    destruct (P n0) eqn:HP.
    + destruct Hcase as [v ->]. rewrite od_keys_update. split.
      * intros [[->|?]|(? & ?)]; [right; split; [by left | by exists n0] | by left |].
        right. split; [by right | done].
      * intros [?|([->|?] & ?)]; [left; by right | left; by left | by right].
    + subst d1. split.
      * intros [?|(? & ?)]; [by left | right; split; [by right | done]].
      * intros [?|([->|?] & n & Hn & HPn)]; [by left | congruence | right; eauto].
Qed.

Lemma dictionary_keys {V} (nodes : odict Node) (P : Node → bool)
    (body : odict V → string → result (odict V)) :
  (∀ d k n, od_get nodes k = Some n →
     ∃ d', body d k = Ok d' ∧ if P n then ∃ v, d' = od_update d k v else d' = d) →
  ∃ d', for_in (od_keys nodes) body [] = Ok d'
        ∧ ∀ k, k ∈ od_keys d' ↔ ∃ n, od_get nodes k = Some n ∧ P n = true.
Proof.
  intros Hbody.
  destruct (dictionary_loop nodes P body Hbody (od_keys nodes) []) as (d' & Hd' & Hkeys);
    [done|].
  exists d'. split; [exact Hd'|]. intros k. rewrite Hkeys. split.
  - intros [H|[_ H]]; [by apply not_elem_of_nil in H | exact H].
  - intros (n & Hn & HP). right. split; [|eauto]. apply od_get_keys. by eexists.
Qed.

Lemma sources_keys (nodes : odict Node) :
  ∃ d, _createSourcesDictionary nodes = Ok d
       ∧ ∀ k, k ∈ od_keys d
              ↔ ∃ n, od_get nodes k = Some n ∧ bool_decide (ntype n = "Source Name") = true.
Proof.
  apply (dictionary_keys nodes (λ n, bool_decide (ntype n = "Source Name"))).
  intros d k n Hn. unfold od_getitem. rewrite Hn, bind_Ok.
  destruct (bool_decide (ntype n = "Source Name")); [|by eexists].
  rewrite bind_Ok. destruct (createCharacteristicList_total k n) as [cs ->].
  rewrite bind_Ok. eexists. split; [reflexivity | by eexists].
Qed.

Lemma samples_keys (nodes : odict Node) :
  ∃ d, _createSampleDictionary nodes = Ok d
       ∧ ∀ k, k ∈ od_keys d
              ↔ ∃ n, od_get nodes k = Some n ∧ bool_decide (ntype n = "Sample Name") = true.
Proof.
  apply (dictionary_keys nodes (λ n, bool_decide (ntype n = "Sample Name"))).
  intros d k n Hn. unfold od_getitem. rewrite Hn, bind_Ok.
  destruct (bool_decide (ntype n = "Sample Name")); [|by eexists].
  rewrite bind_Ok. destruct (createCharacteristicList_total k n) as [cs ->].
  rewrite bind_Ok. eexists. split; [reflexivity | by eexists].
Qed.

Lemma data_keys (nodes : odict Node) :
  ∃ d, _createDataFiles nodes = Ok d
       ∧ ∀ k, k ∈ od_keys d
              ↔ ∃ n, od_get nodes k = Some n ∧ endswith (ntype n) "Data File" = true.
Proof.
  apply (dictionary_keys nodes (λ n, endswith (ntype n) "Data File")).
  intros d k n Hn. unfold od_getitem. rewrite Hn, bind_Ok.
  destruct (endswith (ntype n) "Data File"); [|by eexists].
  rewrite !bind_Ok. eexists. split; [reflexivity | by eexists].
Qed.

(** C9: for every node graph the three dictionaries are built without
    error; a name is a key of the source dictionary exactly when its node
    is tagged "Source Name", of the sample dictionary exactly when it is
    tagged "Sample Name", of the data dictionary exactly when its tag
    ends in "Data File"; no name is a key of two of them; and a node whose
    tag meets none of the three conditions is a key of none. *)
Theorem node_dictionaries_partition (nodes : odict Node) :
  ∃ src smp dat,
    _createSourcesDictionary nodes = Ok src
    ∧ _createSampleDictionary nodes = Ok smp
    ∧ _createDataFiles nodes = Ok dat
    ∧ (∀ k, k ∈ od_keys src ↔ ∃ n, od_get nodes k = Some n ∧ ntype n = "Source Name")
    ∧ (∀ k, k ∈ od_keys smp ↔ ∃ n, od_get nodes k = Some n ∧ ntype n = "Sample Name")
    ∧ (∀ k, k ∈ od_keys dat
            ↔ ∃ n, od_get nodes k = Some n ∧ endswith (ntype n) "Data File" = true)
    ∧ (∀ k, ¬ (k ∈ od_keys src ∧ k ∈ od_keys smp)
            ∧ ¬ (k ∈ od_keys src ∧ k ∈ od_keys dat)
            ∧ ¬ (k ∈ od_keys smp ∧ k ∈ od_keys dat))
    ∧ (∀ k n, od_get nodes k = Some n →
              ntype n ≠ "Source Name" → ntype n ≠ "Sample Name" →
              endswith (ntype n) "Data File" = false →
              (k ∉ od_keys src) ∧ (k ∉ od_keys smp) ∧ (k ∉ od_keys dat)).
Proof.
  destruct (sources_keys nodes) as (src & Hsrc & Ksrc).
  destruct (samples_keys nodes) as (smp & Hsmp & Ksmp).
  destruct (data_keys nodes) as (dat & Hdat & Kdat).
  assert (Ksrc' : ∀ k, k ∈ od_keys src
                       ↔ ∃ n, od_get nodes k = Some n ∧ ntype n = "Source Name").
  { intros k. rewrite Ksrc. by setoid_rewrite bool_decide_eq_true. }
  assert (Ksmp' : ∀ k, k ∈ od_keys smp
                       ↔ ∃ n, od_get nodes k = Some n ∧ ntype n = "Sample Name").
  { intros k. rewrite Ksmp. by setoid_rewrite bool_decide_eq_true. }
  exists src, smp, dat.
  split; [exact Hsrc|]. split; [exact Hsmp|]. split; [exact Hdat|].
  split; [exact Ksrc'|]. split; [exact Ksmp'|]. split; [exact Kdat|]. split.
  - intros k. split; [|split]; intros [H1 H2].
    + apply Ksrc' in H1 as (n & Hn & Ht). apply Ksmp' in H2 as (n' & Hn' & Ht').
      rewrite Hn in Hn'. injection Hn' as <-. rewrite Ht in Ht'. discriminate Ht'.
    + apply Ksrc' in H1 as (n & Hn & Ht). apply Kdat in H2 as (n' & Hn' & Ht').
      rewrite Hn in Hn'. injection Hn' as <-. rewrite Ht in Ht'. discriminate Ht'.
    + apply Ksmp' in H1 as (n & Hn & Ht). apply Kdat in H2 as (n' & Hn' & Ht').
      rewrite Hn in Hn'. injection Hn' as <-. rewrite Ht in Ht'. discriminate Ht'.
  - intros k n Hn Hnsrc Hnsmp Hndat. split; [|split]; intros Hk.
    + apply Ksrc' in Hk as (n' & Hn' & Ht'). congruence.
    + apply Ksmp' in Hk as (n' & Hn' & Ht'). congruence.
    + apply Kdat in Hk as (n' & Hn' & Ht'). congruence.
Qed.

Lemma node_dictionaries_partition_witness :
  ∃ src smp dat,
    _createSourcesDictionary mixed_nodes = Ok src
    ∧ _createSampleDictionary mixed_nodes = Ok smp
    ∧ _createDataFiles mixed_nodes = Ok dat
    ∧ ("p1" ∉ od_keys src) ∧ ("p1" ∉ od_keys smp) ∧ ("p1" ∉ od_keys dat).
Proof.
  destruct (node_dictionaries_partition mixed_nodes)
    as (src & smp & dat & Hsrc & Hsmp & Hdat & _ & _ & _ & _ & Hnone).
  exists src, smp, dat. repeat split; try assumption;
    apply (Hnone "p1" (mkNode "Protocol REF" "p1" [])); try reflexivity; discriminate.
Defined.

Example mixed_nodes_dictionaries :
  _createSourcesDictionary mixed_nodes
  = Ok [("s1", mkSourceItem "s1" [mkCharacteristicItem (OntologyAnnotation_named "organism")])]
  ∧ _createSampleDictionary mixed_nodes = Ok [("m1", mkSampleItem "m1" [] [])]
  ∧ _createDataFiles mixed_nodes = Ok [("d1", mkData "d1" "Raw Data File")].
Proof. repeat split. Qed.

(** ** Serializer *)

(** A loop that assigns row [i] of a frame and leaves [i] as it is keeps
    at most that one row. *)
Lemma loop_without_increment {A} (cs : list A)
    (body : DataFrame * nat → A → result (DataFrame * nat)) :
  (∀ df i c r, body (df, i) c = Ok r → ∃ cells, r = (loc_set df i cells, i)) →
  ∀ df r, rows df = [] ∨ (∃ cells, rows df = [(0, cells)]) →
    for_in cs body (df, 0) = Ok r →
    r.2 = 0 ∧ columns r.1 = columns df
    ∧ (rows r.1 = [] ∨ ∃ cells, rows r.1 = [(0, cells)])
    ∧ length (rows r.1) = if decide (cs = []) then length (rows df) else 1.
Proof.
  intros Hbody. induction cs as [|c cs IH]; intros df r Hrows H; simpl in H.
  - injection H as <-. simpl. auto.
  - apply bind_ok_inv in H as (r1 & H1 & H).
    apply Hbody in H1 as [cells ->].
    assert (Hone : rows (loc_set df 0 cells) = [(0, cells)]).
    { destruct Hrows as [E|[c0 E]]; simpl; rewrite E; reflexivity. }
    apply IH in H; [|right; eauto].
    destruct H as (Hi & Hc & Hr & Hl). split; [exact Hi|]. split; [exact Hc|].
    split; [exact Hr|]. rewrite Hl, Hone. by destruct (decide (cs = [])).
Qed.

(** C6 (evaluating the code): whenever the INVESTIGATION CONTACTS section
    is written, its table has the index label 'Investigation PubMed ID',
    and it has a single data column as soon as there is a contact,
    whatever their number: every contact is assigned to row 0, so only
    the last one is kept.  The claim asks for one column per contact
    under the label 'Investigation Person Last Name'. *)
Theorem contacts_table_single_column (investigation : Investigation)
    (csv : list (list string)) :
  contacts_table investigation = Ok csv →
  index_label csv = Some "Investigation PubMed ID"
  ∧ length (data_columns csv) = if decide (contacts investigation = []) then 0 else 1.
Proof.
  unfold contacts_table, investigation_contacts_section. intros H.
  apply bind_ok_inv in H as (s & H & Hs).
  apply bind_ok_inv in H as ([df i] & Hloop & H).
  apply loop_without_increment in Hloop as (_ & Hc & _ & Hl); [| |by left].
  - simpl in Hc, Hl. unfold set_index_T in H. rewrite Hc in H. simpl in H.
    injection H as <-. injection Hs as <-. split; [reflexivity|].
    simpl. rewrite !length_map, length_seq, Nat.sub_0_r, Hl.
    by destruct (decide (contacts investigation = [])).
  - intros df0 i0 c r Hr. apply bind_ok_inv in Hr as ([[r1 r2] r3] & _ & Hr).
    injection Hr as <-. eexists. reflexivity.
Qed.

Lemma contacts_table_single_column_witness :
  index_label
    [["Investigation PubMed ID"; "Jones"];
     ["Investigation Person First Name"; "Bob"];
     ["Investigation Person Mid Initials"; ""];
     ["Investigation Person Email"; ""];
     ["Investigation Person Phone"; ""];
     ["Investigation Person Fax"; ""];
     ["Investigation Person Address"; ""];
     ["Investigation Person Affiliation"; ""];
     ["Investigation Person Roles"; ""];
     ["Investigation Person Roles Term Accession Number"; ""];
     ["Investigation Person Roles Term Source REF"; ""]]
  = Some "Investigation PubMed ID"
  ∧ length (data_columns
      [["Investigation PubMed ID"; "Jones"];
       ["Investigation Person First Name"; "Bob"];
       ["Investigation Person Mid Initials"; ""];
       ["Investigation Person Email"; ""];
       ["Investigation Person Phone"; ""];
       ["Investigation Person Fax"; ""];
       ["Investigation Person Address"; ""];
       ["Investigation Person Affiliation"; ""];
       ["Investigation Person Roles"; ""];
       ["Investigation Person Roles Term Accession Number"; ""];
       ["Investigation Person Roles Term Source REF"; ""]])
    = if decide (contacts two_contacts = []) then 0 else 1.
Proof. apply (contacts_table_single_column two_contacts). reflexivity. Defined.

Example two_contacts_table :
  contacts_table two_contacts
  = Ok [["Investigation PubMed ID"; "Jones"];
        ["Investigation Person First Name"; "Bob"];
        ["Investigation Person Mid Initials"; ""];
        ["Investigation Person Email"; ""];
        ["Investigation Person Phone"; ""];
        ["Investigation Person Fax"; ""];
        ["Investigation Person Address"; ""];
        ["Investigation Person Affiliation"; ""];
        ["Investigation Person Roles"; ""];
        ["Investigation Person Roles Term Accession Number"; ""];
        ["Investigation Person Roles Term Source REF"; ""]].
Proof. reflexivity. Qed.

(** ** [loads] *)

(** C10: [loads] ignores its argument: for every string it returns the
    default-constructed empty Investigation, so any two calls return
    equal values. *)
Theorem loads_ignores_input (s1 s2 : string) :
  loads s1 = Investigation_default ∧ loads s1 = loads s2.
Proof. split; reflexivity. Qed.

(** * Further properties of the loader and the serializer *)

(** ** Loops that collect one element per item *)

Lemma getitem_ok_iff (d : record) (k v : string) : getitem d k = Ok v ↔ d !! k = Some v.
Proof.
  unfold getitem. destruct (d !! k) as [w|]; split; intros H; try discriminate H.
  - by injection H as ->.
  - by injection H as ->.
Qed.

Lemma bind_ok_iff {A B} (m : result A) (f : A → result B) (b : B) :
  (m ≫= f) = Ok b ↔ ∃ a, m = Ok a ∧ f a = Ok b.
Proof.
  split; [apply bind_ok_inv|]. intros (a & -> & H). exact H.
Qed.

Lemma for_in_collect_iff {A B} (R : A → B → Prop) (xs : list A)
    (body : list B → A → result (list B)) :
  (∀ acc x r, body acc x = Ok r ↔ ∃ y, r = acc ++ [y] ∧ R x y) →
  ∀ acc r, for_in xs body acc = Ok r ↔ ∃ ys, r = acc ++ ys ∧ Forall2 R xs ys.
Proof.
  intros Hbody. induction xs as [|x xs IH]; intros acc r; simpl.
  - split.
    + intros H. injection H as <-. exists []. by rewrite app_nil_r.
    + intros (ys & -> & HF). apply Forall2_nil_inv_l in HF as ->. by rewrite app_nil_r.
  - rewrite bind_ok_iff. split.
    + intros (r1 & H1 & H2). apply Hbody in H1 as (y & -> & HR).
      apply IH in H2 as (ys & -> & HF). exists (y :: ys).
      split; [by rewrite <- app_assoc | by constructor].
    + intros (ys & -> & HF). apply Forall2_cons_inv_l in HF as (y & ys' & HR & HF & ->).
      exists (acc ++ [y]). split; [apply Hbody; eauto|].
      apply IH. exists ys'. split; [by rewrite <- app_assoc | done].
Qed.

Lemma for_in_collect_nil {A B} (R : A → B → Prop) (xs : list A)
    (body : list B → A → result (list B)) (l : list B) :
  (∀ acc x r, body acc x = Ok r ↔ ∃ y, r = acc ++ [y] ∧ R x y) →
  for_in xs body [] = Ok l ↔ Forall2 R xs l.
Proof.
  intros Hbody. rewrite (for_in_collect_iff R xs body Hbody). simpl. split.
  - by intros (ys & -> & HF).
  - intros HF. by exists l.
Qed.

(** ** Entity builders *)

Lemma createOntologySourceReferences_rel (refs : list record)
    (l : list OntologySourceReference) :
  _createOntologySourceReferences refs = Ok l ↔ Forall2 osr_of_record refs l.
Proof.
  unfold _createOntologySourceReferences. apply for_in_collect_nil.
  intros acc r res. cbv beta zeta. split.
  - intros H.
    apply bind_ok_inv in H as (d & Hd & H). apply bind_ok_inv in H as (f & Hf & H).
    apply bind_ok_inv in H as (n & Hn & H). apply bind_ok_inv in H as (v & Hv & H).
    injection H as <-. apply getitem_ok_iff in Hd, Hf, Hn, Hv.
    eexists. split; [reflexivity|]. by repeat split.
  - intros ([d f n v] & -> & Hd & Hf & Hn & Hv). simpl in *.
    apply getitem_ok_iff in Hd, Hf, Hn, Hv. by rewrite Hd, Hf, Hn, Hv.
Qed.

(** X1: the ontology-source builder returns [l] exactly when [l] has one
    reference per record, in the same order, whose four fields are the
    record's values under the four 'Term Source ...' headers. *)
Theorem createOntologySourceReferences_iff (refs : list record)
    (l : list OntologySourceReference) :
  _createOntologySourceReferences refs = Ok l ↔ Forall2 osr_of_record refs l.
Proof. exact (createOntologySourceReferences_rel refs l). Qed.

Lemma createContacts_rel (cs : list record) (inv_or_study : string) (l : list Contact) :
  _createContacts cs inv_or_study = Ok l ↔ Forall2 (contact_of_record inv_or_study) cs l.
Proof.
  unfold _createContacts. apply for_in_collect_nil.
  intros acc r res. cbv beta zeta. split.
  - intros H.
    apply bind_ok_inv in H as (x1 & H1 & H). apply bind_ok_inv in H as (x2 & H2 & H).
    apply bind_ok_inv in H as (x3 & H3 & H). apply bind_ok_inv in H as (x4 & H4 & H).
    apply bind_ok_inv in H as (x5 & H5 & H). apply bind_ok_inv in H as (x6 & H6 & H).
    apply bind_ok_inv in H as (x7 & H7 & H). apply bind_ok_inv in H as (x8 & H8 & H).
    injection H as <-. apply getitem_ok_iff in H1, H2, H3, H4, H5, H6, H7, H8.
    eexists. split; [reflexivity|]. by repeat split.
  - intros ([x1 x2 x3 x4 x5 x6 x7 x8 rs] & -> & H1 & H2 & H3 & H4 & H5 & H6 & H7 & H8 & Hr).
    simpl in *. subst rs. apply getitem_ok_iff in H1, H2, H3, H4, H5, H6, H7, H8.
    by rewrite H1, H2, H3, H4, H5, H6, H7, H8.
Qed.

(** X2: under either scope prefix the contacts builder returns [l]
    exactly when [l] has one contact per record, in the same order, with
    the eight person fields taken from the record under that prefix and
    with an empty list of roles. *)
Theorem createContacts_iff (cs : list record) (inv_or_study : string) (l : list Contact) :
  _createContacts cs inv_or_study = Ok l ↔ Forall2 (contact_of_record inv_or_study) cs l.
Proof. exact (createContacts_rel cs inv_or_study l). Qed.

(** X3: the list builder for ontology annotations agrees, record by
    record and in order, with the single-record builder: it returns [l]
    exactly when the single-record builder returns the elements of [l] on
    the corresponding records. *)
Theorem createOntologyAnnotationList_pointwise (array : list record)
    (inv_or_study type_ : string) (l : list OntologyAnnotation) :
  _createOntologyAnnotationListForInvOrStudy array inv_or_study type_ = Ok l
  ↔ Forall2 (λ r a, _createOntologyAnnotationForInvOrStudy r inv_or_study type_ = Ok a)
      array l.
Proof.
  unfold _createOntologyAnnotationListForInvOrStudy. apply for_in_collect_nil.
  intros acc r res. unfold _createOntologyAnnotationForInvOrStudy. cbv beta zeta.
  destruct (getitem r (inv_or_study +:+ type_)) as [n|e1]; simpl.
  2: { split; [discriminate | intros (? & _ & H); discriminate H]. }
  destruct (getitem r ((inv_or_study +:+ type_) +:+ " Term Source REF")) as [s|e2]; simpl.
  2: { split; [discriminate | intros (? & _ & H); discriminate H]. }
  destruct (getitem r ((inv_or_study +:+ type_) +:+ " Term Accession Number")) as [a|e3];
    simpl.
  2: { split; [discriminate | intros (? & _ & H); discriminate H]. }
  split.
  - intros H. injection H as <-. eexists. split; reflexivity.
  - intros (y & -> & H). by injection H as <-.
Qed.

Lemma assembler_ok_inv (object_ : record) (p t : string) (l : list OntologyAnnotation) :
  _createOntologyAnnotationsFromStringList object_ p t = Ok l →
  ∃ names srcs accs, holds_fields object_ p t names srcs accs.
Proof.
  unfold _createOntologyAnnotationsFromStringList. intros H.
  apply bind_ok_inv in H as (names & Hn & H). apply bind_ok_inv in H as (srcs & Hs & H).
  apply bind_ok_inv in H as (accs & Ha & _).
  apply getitem_ok_iff in Hn, Hs, Ha. by exists names, srcs, accs.
Qed.

Lemma token_count_pos (s : string) : (1 ≤ token_count s)%nat.
Proof.
  unfold token_count. pose proof (str_split_nonempty ";" s).
  destruct (str_split ";" s); [done | simpl; lia].
Qed.

Lemma assembler_never_empty (object_ : record) (p t : string) :
  _createOntologyAnnotationsFromStringList object_ p t ≠ Ok [].
Proof.
  intros H. destruct (assembler_ok_inv _ _ _ _ H) as (names & srcs & accs & Hf).
  rewrite (assembler_on_arrays _ _ _ _ _ _ Hf) in H. case_decide; [|discriminate H].
  injection H as H. apply (f_equal length) in H.
  rewrite length_map, length_seq in H. pose proof (token_count_pos names). simpl in H. lia.
Qed.

(** X4: the protocol-parameter builder returns [ps] exactly when the
    annotation assembler, run on the record's 'Study Protocol Parameters
    Name' fields, returns the [name] annotations of [ps]: one parameter
    per annotation, in order, each keeping the annotation with its term
    source and accession.  It never returns an empty list: a record
    whose parameter-name field is empty yields one parameter. *)
Theorem createProtocolParameterList_iff (protocol : record) :
  (∀ ps, _createProtocolParameterList protocol = Ok ps
         ↔ _createOntologyAnnotationsFromStringList protocol "Study"
             " Protocol Parameters Name" = Ok (map pp_name ps))
  ∧ _createProtocolParameterList protocol ≠ Ok [].
Proof.
  assert (Hiff : ∀ ps, _createProtocolParameterList protocol = Ok ps
            ↔ _createOntologyAnnotationsFromStringList protocol "Study"
                " Protocol Parameters Name" = Ok (map pp_name ps)).
  { intros ps. unfold _createProtocolParameterList.
    destruct (_createOntologyAnnotationsFromStringList protocol "Study"
                " Protocol Parameters Name") as [anns|e]; simpl; [|split; discriminate].
    rewrite (for_in_append _ _ (λ a, [mkProtocolParameter a])) by done.
    rewrite (concat_singletons _ mkProtocolParameter) by done. simpl. split.
    - intros H. injection H as <-. rewrite map_map. simpl. by rewrite map_id.
    - intros H. injection H as ->. rewrite map_map. f_equal.
      induction ps as [|[a] ps IH]; simpl; [reflexivity | by rewrite IH]. }
  split; [exact Hiff|]. intros H. apply Hiff in H. by apply assembler_never_empty in H.
Qed.

(** X5: the protocols builder returns [l] exactly when [l] has one
    protocol per record, in the same order, with name, description, URI
    and version read from the record, the protocol type built by the
    single-annotation builder and the parameters built by the
    protocol-parameter builder from the same record. *)
Theorem createProtocols_iff (protocols : list record) (l : list Protocol) :
  _createProtocols protocols = Ok l ↔ Forall2 protocol_of_record protocols l.
Proof.
  unfold _createProtocols. apply for_in_collect_nil.
  intros acc r res. cbv beta zeta. split.
  - intros H.
    apply bind_ok_inv in H as (x1 & H1 & H). apply bind_ok_inv in H as (x2 & H2 & H).
    apply bind_ok_inv in H as (x3 & H3 & H). apply bind_ok_inv in H as (x4 & H4 & H).
    apply bind_ok_inv in H as (x5 & H5 & H). apply bind_ok_inv in H as (x6 & H6 & H).
    injection H as <-. apply getitem_ok_iff in H1, H3, H4, H5.
    eexists. split; [reflexivity|]. by repeat split.
  - intros ([x1 x2 x3 x4 x5 x6] & -> & H1 & H2 & H3 & H4 & H5 & H6). simpl in *.
    apply getitem_ok_iff in H1, H3, H4, H5. by rewrite H1, H2, H3, H4, H5, H6.
Qed.

(** ** Characteristics *)


Lemma str_remove_keeps_free (c c' : ascii) (s : string) :
  contains_char c' s = false → contains_char c' (str_remove c s) = false.
Proof.
  induction s as [|a s IH]; simpl; [done|]. intros H.
  apply orb_false_iff in H as [Ha Hs]. destruct (decide (a = c)); [by apply IH|].
  simpl. rewrite Ha. by apply IH.
Qed.

Lemma str_remove_id (c : ascii) (s : string) :
  contains_char c s = false → str_remove c s = s.
Proof.
  induction s as [|a s IH]; simpl; [done|]. intros H.
  apply orb_false_iff in H as [Ha Hs]. apply bool_decide_eq_false in Ha.
  destruct (decide (a = c)); [done|]. by rewrite IH.
Qed.

Lemma str_remove_append (c : ascii) (s1 s2 : string) :
  str_remove c (s1 +:+ s2) = str_remove c s1 +:+ str_remove c s2.
Proof.
  induction s1 as [|a s1 IH]; simpl; [reflexivity|].
  destruct (decide (a = c)); [exact IH|]. simpl. by rewrite IH.
Qed.

Lemma append_empty_r (s : string) : s +:+ "" = s.
Proof.
  induction s as [|a s IH]; [reflexivity|].
  change (String a (s +:+ "") = String a s). by rewrite IH.
Qed.



Lemma last_split_after (sep : ascii) (pre x : string) :
  contains_char sep x = false →
  list_last (str_split sep (pre +:+ String sep x)) = Ok x.
Proof.
  intros Hx. unfold list_last.
  assert (H : last (str_split sep (pre +:+ String sep x)) = Some x).
  { induction pre as [|a pre IH]; simpl.
    - destruct (decide (sep = sep)); [|done]. by rewrite (str_split_free _ _ Hx).
    - destruct (decide (a = sep)).
      + destruct (str_split sep (pre +:+ String sep x)) eqn:E; [done|]. exact IH.
      + destruct (str_split sep (pre +:+ String sep x)) as [|t [|t' ts]] eqn:E;
          [done | | exact IH].
        exfalso. clear IH. revert t E. induction pre as [|b pre IH']; simpl; intros t E.
        * destruct (decide (sep = sep)); [|done]. rewrite (str_split_free _ _ Hx) in E.
          discriminate E.
        * destruct (decide (b = sep)); [|].
          -- pose proof (str_split_nonempty sep (pre +:+ String sep x)).
             destruct (str_split sep (pre +:+ String sep x)); [done | discriminate E].
          -- destruct (str_split sep (pre +:+ String sep x)) as [|u [|u' us]] eqn:E';
               [by eapply str_split_nonempty | by eapply IH' | discriminate E]. }
  by rewrite H.
Qed.


(** X7: when the metadata headers of a node are the characteristic
    headers of a list of bracket-free labels, the characteristics builder
    returns exactly those labels as annotation names, in header order. *)
Theorem createCharacteristicList_labels (node_name : string) (node : Node)
    (xs : list string) :
  od_keys (node_metadata node) = map characteristics_header xs →
  Forall bracket_free xs →
  _createCharacteristicList node_name node
  = Ok (map (λ x, mkCharacteristicItem (OntologyAnnotation_named x)) xs).
Proof.
  intros Hk Hfree. unfold _createCharacteristicList. rewrite Hk.
  rewrite (for_in_append _ _ (λ h, match list_last (str_split "[" (str_remove "]" h)) with
                                   | Ok t => [mkCharacteristicItem (OntologyAnnotation_named t)]
                                   | Raise _ => []
                                   end)).
  - simpl. f_equal. rewrite map_map. clear Hk.
    induction xs as [|x xs IH]; [reflexivity|].
    apply Forall_cons in Hfree as [[Hx1 Hx2] Hfree].
    cbn [map concat]. rewrite (IH Hfree). unfold characteristics_header at 1.
    change ("Characteristics[" +:+ (x +:+ "]")) with ("Characteristics" +:+ String "[" (x +:+ "]")).
    rewrite str_remove_append. cbn [str_remove]. destruct (decide ("["%char = "]"%char)); [done|].
    rewrite str_remove_append, (str_remove_id _ _ Hx2). cbn [str_remove].
    destruct (decide ("]"%char = "]"%char)); [|done].
    rewrite append_empty_r.
    rewrite (last_split_after "[" _ x Hx1). reflexivity.
  - intros acc h Hin. apply list_elem_of_fmap in Hin as (x & -> & _).
    unfold characteristics_header. cbn [startswith String.append String.prefix].
    assert (Hp : startswith ("Characteristics[" +:+ (x +:+ "]")) "Characteristics" = true)
      by reflexivity.
    rewrite Hp.
    destruct (list_last_split "[" (str_remove "]" ("Characteristics[" +:+ (x +:+ "]"))))
      as [t Ht].
    rewrite Ht. reflexivity.
Qed.

Lemma createCharacteristicList_labels_witness :
  _createCharacteristicList "s1" two_characteristics_node
  = Ok (map (λ x, mkCharacteristicItem (OntologyAnnotation_named x)) ["organism"; "strain"]).
Proof.
  apply (createCharacteristicList_labels "s1" two_characteristics_node
           ["organism"; "strain"]).
  - reflexivity.
  - repeat constructor.
Defined.

(** ** Node dictionaries: order and entries *)

Lemma od_update_fresh {V} (d : odict V) (k : string) (v : V) :
  k ∉ od_keys d → od_update d k v = d ++ [(k, v)].
Proof.
  induction d as [|[k' v'] d IH]; simpl; intros H; [reflexivity|].
  apply not_elem_of_cons in H as [Hne Hd].
  destruct (decide (k' = k)); [done|]. by rewrite IH.
Qed.

Lemma od_get_NoDup {V} (d : odict V) (k : string) (v : V) :
  NoDup (od_keys d) → (k, v) ∈ d → od_get d k = Some v.
Proof.
  induction d as [|[k' v'] d IH]; simpl; intros Hnd Hin.
  - by apply not_elem_of_nil in Hin.
  - apply NoDup_cons in Hnd as [Hk' Hnd]. apply elem_of_cons in Hin as [Heq|Hin].
    + injection Heq as -> ->. by destruct (decide (k' = k')).
    + destruct (decide (k' = k)) as [->|Hne]; [|by apply IH].
      exfalso. apply Hk'. unfold od_keys.
      change (map fst d) with (fst <$> d). apply list_elem_of_fmap. by exists (k, v).
Qed.

(** A loop that adds, for each fresh key in turn, an entry for the node
    under that key when it satisfies [P]. *)
Lemma dictionary_loop_entries {V} (nodes : odict Node) (P : Node → bool)
    (Q : string → Node → V → Prop) (body : odict V → string → result (odict V)) :
  (∀ d k n, od_get nodes k = Some n →
     ∃ d', body d k = Ok d'
           ∧ if P n then ∃ v, Q k n v ∧ d' = od_update d k v else d' = d) →
  ∀ (l : odict Node) d,
    (∀ k n, (k, n) ∈ l → od_get nodes k = Some n) →
    NoDup (od_keys l) → (∀ k, k ∈ od_keys l → k ∉ od_keys d) →
    ∃ new, for_in (od_keys l) body d = Ok (d ++ new)
           ∧ od_keys new = names_where P l
           ∧ Forall (λ kv, ∃ n, od_get nodes kv.1 = Some n ∧ Q kv.1 n kv.2) new.
Proof.
  intros Hbody l. induction l as [|[k0 n0] l IH]; intros d Hl Hnd Hfresh; simpl.
  - exists []. rewrite app_nil_r. by repeat split.
  - simpl in Hnd. apply NoDup_cons in Hnd as [Hk0 Hnd].
    assert (Hn0 : od_get nodes k0 = Some n0) by (apply Hl; left).
    destruct (Hbody d k0 n0 Hn0) as (d1 & Hd1 & Hcase). rewrite Hd1, bind_Ok.
    assert (Hl' : ∀ k n, (k, n) ∈ l → od_get nodes k = Some n)
      by (intros k n Hin; apply Hl; by right).
    unfold names_where. simpl. destruct (P n0) eqn:HP.
    + destruct Hcase as (v & HQ & ->).
      rewrite od_update_fresh by (apply Hfresh; left).
      destruct (IH (d ++ [(k0, v)]) Hl' Hnd) as (new & Hnew & Hkeys & Hall).
      * intros k Hk Hin. unfold od_keys in Hin. rewrite map_app in Hin.
        apply elem_of_app in Hin as [Hin|Hin].
        -- by apply (Hfresh k); [right|].
        -- simpl in Hin. apply list_elem_of_singleton in Hin as ->. by apply Hk0.
      * exists ((k0, v) :: new). rewrite <- app_assoc in Hnew. split; [exact Hnew|].
        split; [simpl; by rewrite Hkeys|]. constructor; [by exists n0 | exact Hall].
    + subst d1. destruct (IH d Hl' Hnd) as (new & Hnew & Hkeys & Hall).
      * intros k Hk. apply Hfresh. by right.
      * exists new. by repeat split.
Qed.

Lemma dictionary_entries {V} (nodes : odict Node) (P : Node → bool)
    (Q : string → Node → V → Prop) (body : odict V → string → result (odict V)) :
  (∀ d k n, od_get nodes k = Some n →
     ∃ d', body d k = Ok d'
           ∧ if P n then ∃ v, Q k n v ∧ d' = od_update d k v else d' = d) →
  NoDup (od_keys nodes) →
  ∃ d, for_in (od_keys nodes) body [] = Ok d
       ∧ od_keys d = names_where P nodes
       ∧ Forall (λ kv, ∃ n, od_get nodes kv.1 = Some n ∧ Q kv.1 n kv.2) d.
Proof.
  intros Hbody Hnd.
  destruct (dictionary_loop_entries nodes P Q body Hbody nodes []) as (new & H & Hk & Hall).
  - intros k n Hin. by apply od_get_NoDup.
  - exact Hnd.
  - intros k _ Hin. by apply not_elem_of_nil in Hin.
  - exists new. by repeat split.
Qed.

Lemma sources_dictionary_rel (nodes : odict Node) :
  NoDup (od_keys nodes) →
  ∃ d, _createSourcesDictionary nodes = Ok d
       ∧ od_keys d = names_where (λ n, bool_decide (ntype n = "Source Name")) nodes
       ∧ Forall (λ kv, ∃ n, od_get nodes kv.1 = Some n
                            ∧ source_name kv.2 = kv.1
                            ∧ _createCharacteristicList kv.1 n
                              = Ok (source_characteristics kv.2)) d.
Proof.
  apply (dictionary_entries nodes (λ n, bool_decide (ntype n = "Source Name"))
           (λ k n v, source_name v = k
                     ∧ _createCharacteristicList k n = Ok (source_characteristics v))).
  intros d k n Hn. unfold od_getitem. rewrite Hn, bind_Ok.
  destruct (bool_decide (ntype n = "Source Name")); [|by eexists].
  rewrite bind_Ok. destruct (createCharacteristicList_total k n) as [cs Hcs].
  rewrite Hcs, bind_Ok. eexists. split; [reflexivity|].
  exists (mkSourceItem k cs). by repeat split.
Qed.

(** X8: for a node graph with distinct names, the source dictionary is
    built without error; its keys are the names of the nodes tagged
    "Source Name", in the graph's order; and the entry under a key
    carries that key as its name and the characteristics built from that
    node. *)
Theorem sources_dictionary_entries (nodes : odict Node) :
  NoDup (od_keys nodes) →
  ∃ d, _createSourcesDictionary nodes = Ok d
       ∧ od_keys d = names_where (λ n, bool_decide (ntype n = "Source Name")) nodes
       ∧ Forall (λ kv, ∃ n, od_get nodes kv.1 = Some n
                            ∧ source_name kv.2 = kv.1
                            ∧ _createCharacteristicList kv.1 n
                              = Ok (source_characteristics kv.2)) d.
Proof. exact (sources_dictionary_rel nodes). Qed.

Lemma sources_dictionary_entries_witness :
  ∃ d, _createSourcesDictionary mixed_nodes = Ok d
       ∧ od_keys d = names_where (λ n, bool_decide (ntype n = "Source Name")) mixed_nodes
       ∧ Forall (λ kv, ∃ n, od_get mixed_nodes kv.1 = Some n
                            ∧ source_name kv.2 = kv.1
                            ∧ _createCharacteristicList kv.1 n
                              = Ok (source_characteristics kv.2)) d.
Proof.
  apply (sources_dictionary_entries mixed_nodes).
  apply (bool_decide_unpack _). reflexivity.
Defined.

Lemma samples_dictionary_rel (nodes : odict Node) :
  NoDup (od_keys nodes) →
  ∃ d, _createSampleDictionary nodes = Ok d
       ∧ od_keys d = names_where (λ n, bool_decide (ntype n = "Sample Name")) nodes
       ∧ Forall (λ kv, ∃ n, od_get nodes kv.1 = Some n
                            ∧ sample_name kv.2 = kv.1
                            ∧ factors kv.2 = []
                            ∧ _createCharacteristicList kv.1 n
                              = Ok (sample_characteristics kv.2)) d.
Proof.
  apply (dictionary_entries nodes (λ n, bool_decide (ntype n = "Sample Name"))
           (λ k n v, sample_name v = k ∧ factors v = []
                     ∧ _createCharacteristicList k n = Ok (sample_characteristics v))).
  intros d k n Hn. unfold od_getitem. rewrite Hn, bind_Ok.
  destruct (bool_decide (ntype n = "Sample Name")); [|by eexists].
  rewrite bind_Ok. destruct (createCharacteristicList_total k n) as [cs Hcs].
  rewrite Hcs, bind_Ok. eexists. split; [reflexivity|].
  exists (mkSampleItem k [] cs). by repeat split.
Qed.

(** X9: for a node graph with distinct names, the sample dictionary is
    built without error; its keys are the names of the nodes tagged
    "Sample Name", in the graph's order; and the entry under a key
    carries that key as its name, no factors, and the characteristics
    built from that node. *)
Theorem samples_dictionary_entries (nodes : odict Node) :
  NoDup (od_keys nodes) →
  ∃ d, _createSampleDictionary nodes = Ok d
       ∧ od_keys d = names_where (λ n, bool_decide (ntype n = "Sample Name")) nodes
       ∧ Forall (λ kv, ∃ n, od_get nodes kv.1 = Some n
                            ∧ sample_name kv.2 = kv.1
                            ∧ factors kv.2 = []
                            ∧ _createCharacteristicList kv.1 n
                              = Ok (sample_characteristics kv.2)) d.
Proof. exact (samples_dictionary_rel nodes). Qed.

Lemma samples_dictionary_entries_witness :
  ∃ d, _createSampleDictionary mixed_nodes = Ok d
       ∧ od_keys d = names_where (λ n, bool_decide (ntype n = "Sample Name")) mixed_nodes
       ∧ Forall (λ kv, ∃ n, od_get mixed_nodes kv.1 = Some n
                            ∧ sample_name kv.2 = kv.1
                            ∧ factors kv.2 = []
                            ∧ _createCharacteristicList kv.1 n
                              = Ok (sample_characteristics kv.2)) d.
Proof.
  apply (samples_dictionary_entries mixed_nodes).
  apply (bool_decide_unpack _). reflexivity.
Defined.

(** X10: for a node graph with distinct names, the data dictionary is
    built without error; its keys are the names of the nodes whose tag
    ends in "Data File", in the graph's order; and the entry under a key
    carries the node's own [name] attribute (not the key) and the node's
    tag as its type. *)
Theorem data_dictionary_entries (nodes : odict Node) :
  NoDup (od_keys nodes) →
  ∃ d, _createDataFiles nodes = Ok d
       ∧ od_keys d = names_where (λ n, endswith (ntype n) "Data File") nodes
       ∧ Forall (λ kv, ∃ n, od_get nodes kv.1 = Some n
                            ∧ data_name kv.2 = node_name n
                            ∧ type_ kv.2 = ntype n
                            ∧ endswith (type_ kv.2) "Data File" = true) d.
Proof.
  intros Hnd.
  destruct (dictionary_entries nodes (λ n, endswith (ntype n) "Data File")
              (λ k n v, data_name v = node_name n ∧ type_ v = ntype n
                        ∧ endswith (type_ v) "Data File" = true)
              (λ json_dict node_index,
                 node ← od_getitem nodes node_index;
                 if endswith (ntype node) "Data File" then
                   n1 ← od_getitem nodes node_index;
                   n2 ← od_getitem nodes node_index;
                   let json_item := mkData (node_name n1) (ntype n2) in
                   Ok (od_update json_dict node_index json_item)
                 else Ok json_dict)) as (d & Hd & Hk & Hall); [|exact Hnd|].
  - intros d k n Hn. unfold od_getitem. rewrite Hn, bind_Ok.
    destruct (endswith (ntype n) "Data File") eqn:He; [|by eexists].
    rewrite !bind_Ok. eexists. split; [reflexivity|].
    exists (mkData (node_name n) (ntype n)). by repeat split.
  - exists d. by repeat split.
Qed.

Lemma data_dictionary_entries_witness :
  ∃ d, _createDataFiles mixed_nodes = Ok d
       ∧ od_keys d = names_where (λ n, endswith (ntype n) "Data File") mixed_nodes
       ∧ Forall (λ kv, ∃ n, od_get mixed_nodes kv.1 = Some n
                            ∧ data_name kv.2 = node_name n
                            ∧ type_ kv.2 = ntype n
                            ∧ endswith (type_ kv.2) "Data File" = true) d.
Proof.
  apply (data_dictionary_entries mixed_nodes).
  apply (bool_decide_unpack _). reflexivity.
Defined.

(** ** Linking against the dictionaries of one node graph *)

Lemma length_concat_le {A B} (f : A → list B) (l : list A) :
  (∀ x, length (f x) ≤ 1)%nat → (length (concat (map f l)) ≤ length l)%nat.
Proof.
  intros H. induction l as [|x l IH]; simpl; [lia|].
  rewrite length_app. specialize (H x). lia.
Qed.

(** X11: when the source and the sample dictionary are built from the
    same node graph, as [load] builds them, every input name resolves in
    at most one of them, so a process's input list never has more
    entries than input names. *)
Theorem inputs_no_fan_out_within_graph (nodes : odict Node)
    (source_dict : odict SourceItem) (sample_dict : odict SampleItem)
    (names : list string) :
  _createSourcesDictionary nodes = Ok source_dict →
  _createSampleDictionary nodes = Ok sample_dict →
  ∃ r, _createInputList names source_dict sample_dict = Ok r
       ∧ (length r ≤ length names)%nat
       ∧ ∀ a, od_get source_dict a = None ∨ od_get sample_dict a = None.
Proof.
  intros Hsrc Hsmp.
  destruct (sources_keys nodes) as (src & Hsrc' & Ksrc).
  destruct (samples_keys nodes) as (smp & Hsmp' & Ksmp).
  rewrite Hsrc in Hsrc'. injection Hsrc' as <-. rewrite Hsmp in Hsmp'. injection Hsmp' as <-.
  assert (Hone : ∀ a, od_get source_dict a = None ∨ od_get sample_dict a = None).
  { intros a. destruct (od_get source_dict a) as [s|] eqn:Es; [|by left].
    destruct (od_get sample_dict a) as [t|] eqn:Et; [|by right]. exfalso.
    assert (H1 : a ∈ od_keys source_dict) by (apply od_get_keys; by eexists).
    assert (H2 : a ∈ od_keys sample_dict) by (apply od_get_keys; by eexists).
    apply Ksrc in H1 as (n & Hn & Ht). apply Ksmp in H2 as (n' & Hn' & Ht').
    rewrite Hn in Hn'. injection Hn' as <-.
    apply bool_decide_eq_true in Ht, Ht'. rewrite Ht in Ht'. discriminate Ht'. }
  rewrite createInputList_eq. eexists. split; [reflexivity|]. split; [|exact Hone].
  apply length_concat_le. intros a. unfold input_entries.
  destruct (Hone a) as [-> | ->]; simpl.
  - destruct (od_get sample_dict a); simpl; lia.
  - destruct (od_get source_dict a); simpl; lia.
Qed.

Lemma inputs_no_fan_out_within_graph_witness :
  ∃ r, _createInputList ["s1"; "m1"; "p1"]
         [("s1", mkSourceItem "s1"
                   [mkCharacteristicItem (OntologyAnnotation_named "organism")])]
         [("m1", mkSampleItem "m1" [] [])] = Ok r
       ∧ (length r ≤ length ["s1"; "m1"; "p1"])%nat
       ∧ ∀ a, od_get [("s1", mkSourceItem "s1"
                               [mkCharacteristicItem (OntologyAnnotation_named "organism")])] a
              = None
              ∨ od_get [("m1", mkSampleItem "m1" [] [])] a = None.
Proof.
  apply (inputs_no_fan_out_within_graph mixed_nodes); reflexivity.
Defined.

(** X12: the process sequence linker never fails, whatever the process
    nodes, the dictionaries and the presence of assay metadata; it
    returns one process per process node, each with an empty
    [executesProtocol] record and no parameters, and its result does not
    depend on the data dictionary. *)
Theorem createProcessSequence_shape (process_nodes : odict ProcessNode)
    (source_dict : odict SourceItem) (sample_dict : odict SampleItem)
    (data_dict data_dict' : odict Data) :
  ∃ procs,
    _createProcessSequence process_nodes source_dict sample_dict data_dict = Ok procs
    ∧ _createProcessSequence process_nodes source_dict sample_dict data_dict' = Ok procs
    ∧ length procs = length process_nodes
    ∧ Forall (λ p, executesProtocol p = ∅ ∧ proc_parameters p = []) procs.
Proof.
  rewrite !createProcessSequence_eq. eexists. split; [reflexivity|]. split; [reflexivity|].
  split.
  - unfold od_keys. by rewrite !length_map.
  - apply Forall_map. apply Forall_forall. by intros name _.
Qed.

(** ** Assays and studies *)

Ltac invert_binds H :=
  repeat (let x := fresh "x" in let Hx := fresh "Hx" in
          apply bind_ok_inv in H as (x & Hx & H)).

Lemma fmap_raw_lookup (m : record) (k v : string) :
  m !! k = Some v → TermSourceRaw <$> m !! k = Some (TermSourceRaw v).
Proof. by intros ->. Qed.

Lemma fmap_raw_getitem (m : record) (k : string) (t : TermSource) :
  TermSourceRaw <$> m !! k = Some t → ∃ v, getitem m k = Ok v ∧ t = TermSourceRaw v.
Proof.
  unfold getitem. destruct (m !! k) as [v|]; simpl; [|discriminate].
  intros H. injection H as <-. by exists v.
Qed.

Lemma createStudyAssaysList_rel (assays : list RawAssay) (l : list Assay) :
  _createStudyAssaysList assays = Ok l ↔ Forall2 assay_of_raw assays l.
Proof.
  unfold _createStudyAssaysList. apply for_in_collect_nil.
  intros acc a res. cbv beta zeta. split.
  - intros H. invert_binds H. injection H as <-.
    eexists. split; [reflexivity|]. unfold assay_of_raw. simpl.
    repeat match goal with H : getitem _ _ = Ok _ |- _ => apply getitem_ok_iff in H end.
    do 3 eexists. repeat split; eauto using fmap_raw_lookup.
  - intros ([fnm [mn ms ma] [tn ts ta] tp ps] & -> & src & smp & dat & H). simpl in H.
    destruct H as (H1 & H2 & H3 & H4 & H5 & H6 & H7 & H8 & H9 & H10 & H11 & H12).
    apply fmap_raw_getitem in H6 as (v6 & H6 & ->).
    apply fmap_raw_getitem in H9 as (v9 & H9 & ->).
    apply getitem_ok_iff in H4, H5, H7, H8, H10, H11.
    rewrite H1, bind_Ok. cbv beta. rewrite H2, bind_Ok. cbv beta.
    rewrite H3, bind_Ok. cbv beta.
    by rewrite H4, H5, H6, H7, H8, H9, H10, H11, H12.
Qed.

(** X13: the assay builder returns [l] exactly when [l] has one assay
    per raw assay, in the same order, each with the eight 'Study Assay
    ...' metadata fields of its raw assay and with the process sequence
    linked against dictionaries built from that assay's own node graph. *)
Theorem createStudyAssaysList_iff (assays : list RawAssay) (l : list Assay) :
  _createStudyAssaysList assays = Ok l ↔ Forall2 assay_of_raw assays l.
Proof. exact (createStudyAssaysList_rel assays l). Qed.

Lemma createStudies_rel (studies : list RawStudy) (l : list Study) :
  _createStudies studies = Ok l ↔ Forall2 study_of_raw studies l.
Proof.
  unfold _createStudies. apply for_in_collect_nil.
  intros acc s res. cbv beta zeta. split.
  - intros H. invert_binds H. injection H as <-.
    eexists. split; [reflexivity|]. unfold study_of_raw. simpl.
    repeat match goal with H : getitem _ _ = Ok _ |- _ => apply getitem_ok_iff in H end.
    match goal with H : _createPublications _ _ = Ok _ |- _ => injection H as <- end.
    do 3 eexists. repeat split; eauto.
  - intros ([i t d sd pr dd pubs cs prots srcs smps ps asys] & -> & src & smp & dat & H).
    simpl in H.
    destruct H as (H1 & H2 & H3 & H4 & H5 & H6 & H7 & H8 & H9 & H10 & H11 & H12 & H13
                   & H14 & H15 & H16).
    subst pubs srcs smps. apply getitem_ok_iff in H4, H5, H6, H7, H8.
    rewrite H1, bind_Ok. cbv beta. rewrite H2, bind_Ok. cbv beta.
    rewrite H3, bind_Ok. cbv beta.
    rewrite H4, H5, H6, H7, H8, H9, H11, H12, H15, H16. reflexivity.
Qed.

(** X14: the study builder returns [l] exactly when [l] has one study
    per raw study, in the same order, each with the five 'Study ...'
    metadata fields of its raw study, design descriptors, contacts,
    protocols and assays built by the respective builders from that raw
    study, sources and samples the values of dictionaries built from the
    study's own node graph, the process sequence linked against those
    dictionaries, and an empty list of publications. *)
Theorem createStudies_iff (studies : list RawStudy) (l : list Study) :
  _createStudies studies = Ok l ↔ Forall2 study_of_raw studies l.
Proof. exact (createStudies_rel studies l). Qed.

Lemma names_of_values {V} (f : V → string) (d : odict V) :
  Forall (λ kv, f kv.2 = kv.1) d → map f (od_values d) = od_keys d.
Proof.
  induction 1 as [|[k v] d Hkv _ IH]; simpl; [reflexivity|]. simpl in Hkv. by rewrite Hkv, IH.
Qed.

(** X15: for raw studies whose node graphs have distinct names, each
    loaded study lists as sources exactly the nodes tagged "Source Name"
    and as samples exactly the nodes tagged "Sample Name", by name and in
    the order of the study's node graph. *)
Theorem loaded_study_materials (studies : list RawStudy) (l : list Study) :
  Forall (λ s, NoDup (od_keys (study_nodes s))) studies →
  _createStudies studies = Ok l →
  Forall2 (λ s st,
             map source_name (sources st)
             = names_where (λ n, bool_decide (ntype n = "Source Name")) (study_nodes s)
             ∧ map sample_name (samples st)
               = names_where (λ n, bool_decide (ntype n = "Sample Name")) (study_nodes s))
    studies l.
Proof.
  intros Hnd H. apply createStudies_rel in H.
  induction H as [|s st studies l Hst _ IH]; [constructor|].
  apply Forall_cons in Hnd as [Hs Hnd]. constructor; [|by apply IH].
  destruct Hst as (src & smp & dat & Hsrc & Hsmp & _ & _ & _ & _ & _ & _ & _ & _ & _ & _
                   & -> & -> & _).
  destruct (sources_dictionary_rel _ Hs) as (src' & Hsrc' & Hk1 & Hall1).
  destruct (samples_dictionary_rel _ Hs) as (smp' & Hsmp' & Hk2 & Hall2).
  rewrite Hsrc in Hsrc'. injection Hsrc' as <-. rewrite Hsmp in Hsmp'. injection Hsmp' as <-.
  split.
  - rewrite <- Hk1. apply names_of_values.
    eapply Forall_impl; [exact Hall1|]. by intros kv (n & _ & Hn & _).
  - rewrite <- Hk2. apply names_of_values.
    eapply Forall_impl; [exact Hall2|]. by intros kv (n & _ & Hn & _).
Qed.

Lemma loaded_study_materials_witness :
  Forall2 (λ s st,
             map source_name (sources st)
             = names_where (λ n, bool_decide (ntype n = "Source Name")) (study_nodes s)
             ∧ map sample_name (samples st)
               = names_where (λ n, bool_decide (ntype n = "Sample Name")) (study_nodes s))
    [study_with_nodes]
    [mkStudy "S1" "t" "d" "2015" "2016" [] [] [] []
       [mkSourceItem "s1" [mkCharacteristicItem (OntologyAnnotation_named "organism")]]
       [mkSampleItem "m1" [] []] [] []].
Proof.
  apply (loaded_study_materials [study_with_nodes]).
  - constructor; [|constructor]. apply (bool_decide_unpack _). reflexivity.
  - reflexivity.
Defined.

(** ** [load] as a whole *)

Lemma load_tree_rel (t : IsaTab) (inv : Investigation) :
  load_tree (Some t) = Ok (Some inv) ↔ investigation_of_tree t inv.
Proof.
  unfold load_tree, investigation_of_tree. split.
  - intros H. case_bool_decide as Hne; [|discriminate H].
    invert_binds H. injection H as <-. simpl.
    repeat match goal with H : getitem _ _ = Ok _ |- _ => apply getitem_ok_iff in H end.
    match goal with H : _createPublications _ _ = Ok _ |- _ => injection H as <- end.
    repeat split; try assumption.
    + by apply createOntologySourceReferences_rel.
    + by apply createContacts_rel.
    + by apply createStudies_rel.
  - destruct inv as [i tt d sd pr osr pubs cs sts]. simpl.
    intros (H1 & H2 & H3 & H4 & H5 & H6 & -> & H8 & H9).
    rewrite bool_decide_eq_true_2.
    + apply getitem_ok_iff in H1, H2, H3, H4, H5.
      apply createOntologySourceReferences_rel in H6. apply createContacts_rel in H8.
      apply createStudies_rel in H9. by rewrite H1, H2, H3, H4, H5, H6, H8, H9.
    + intros He. rewrite He in H1. by rewrite lookup_empty in H1.
Qed.

(** X16: on a parsed tree, [load] returns an Investigation [inv] exactly
    when the five 'Investigation ...' metadata headers hold [inv]'s five
    fields, the ontology source references, contacts and studies of
    [inv] are those the builders make, record by record, of the tree's,
    and [inv] has no publications. *)
Theorem load_tree_iff (t : IsaTab) (inv : Investigation) :
  load_tree (Some t) = Ok (Some inv) ↔ investigation_of_tree t inv.
Proof. exact (load_tree_rel t inv). Qed.
















(** ** Serializer: tables with one column per entity *)

Lemma loc_rows_fresh (rs : list (nat * list string)) (i : nat) (cells : list string) :
  Forall (λ r, (r.1 < i)%nat) rs → loc_rows rs i cells = rs ++ [(i, cells)].
Proof.
  induction 1 as [|[j r] rs Hj _ IH]; simpl; [reflexivity|]. simpl in Hj.
  destruct (decide (j = i)); [lia|]. by rewrite IH.
Qed.

(** A loop that assigns row [i] and then increments [i] adds one row per
    item, in order. *)
Lemma loop_with_increment {A} (cells : A → list string) (xs : list A)
    (body : DataFrame * nat → A → result (DataFrame * nat)) :
  (∀ df i x, x ∈ xs → body (df, i) x = Ok (loc_set df i (cells x), i + 1)) →
  ∀ df i, Forall (λ r, (r.1 < i)%nat) (rows df) →
    for_in xs body (df, i)
    = Ok (mkDataFrame (columns df) (rows df ++ numbered cells i xs), i + length xs).
Proof.
  induction xs as [|x xs IH]; intros Hbody df i Hlt; simpl.
  - rewrite app_nil_r, Nat.add_0_r. by destruct df.
  - rewrite Hbody by left. rewrite bind_Ok, Nat.add_1_r.
    rewrite IH.
    + simpl. rewrite loc_rows_fresh by exact Hlt. rewrite <- app_assoc. simpl.
      by rewrite Nat.add_succ_r.
    + intros df' i' y Hy. apply Hbody. by right.
    + simpl. rewrite loc_rows_fresh by exact Hlt. apply Forall_app. split.
      * eapply Forall_impl; [exact Hlt|]. intros r Hr. simpl in Hr. lia.
      * constructor; [simpl; lia | constructor].
Qed.

Lemma numbered_column {A} (cells : A → list string) (j i : nat) (xs : list A) :
  map (λ r : nat * list string, nth j r.2 "") (numbered cells i xs)
  = map (λ x, nth j (cells x) "") xs.
Proof.
  revert i. induction xs as [|x xs IH]; intros i; simpl; [reflexivity|]. by rewrite IH.
Qed.

Lemma osr_section_eq (investigation : Investigation) :
  ontology_source_reference_section investigation
  = Ok [Text ("ONTOLOGY SOURCE REFERENCE" +:+ newline);
        Table (osr_table (ontology_source_references investigation))].
Proof.
  unfold ontology_source_reference_section. cbv zeta.
  rewrite (loop_with_increment
             (λ o, [osr_name o; osr_file o; osr_version o; osr_description o]));
    [|by intros | by constructor].
  rewrite bind_Ok. unfold set_index_T, to_csv, osr_table. simpl.
  by rewrite !numbered_column.
Qed.

(** X18: the ONTOLOGY SOURCE REFERENCE section is always written; its
    table has the index label 'Term Source Name' followed by the
    references' names, then the rows 'Term Source File', 'Term Source
    Version' and 'Term Source Description' with one cell per reference
    in the references' order, hence as many data columns as
    references. *)
Theorem osr_section_table (investigation : Investigation) :
  ontology_source_reference_section investigation
  = Ok [Text ("ONTOLOGY SOURCE REFERENCE" +:+ newline);
        Table (osr_table (ontology_source_references investigation))]
  ∧ length (data_columns (osr_table (ontology_source_references investigation)))
    = length (ontology_source_references investigation).
Proof.
  split; [apply osr_section_eq|].
  unfold osr_table, data_columns. rewrite length_map, length_seq.
  simpl. rewrite length_map. lia.
Qed.

Lemma Forall2_elem_l {A B} (R : A → B → Prop) (l : list A) (k : list B) (x : A) :
  Forall2 R l k → x ∈ l → ∃ y, R x y.
Proof.
  induction 1 as [|a b l k Hab _ IH]; intros Hin.
  - by apply not_elem_of_nil in Hin.
  - apply elem_of_cons in Hin as [->|Hin]; [by exists b | by apply IH].
Qed.

Lemma publications_section_eq (investigation : Investigation) (source_names : list string) :
  Forall2 (λ p n, term_source_name (term_source (status p)) = Ok n)
    (publications investigation) source_names →
  investigation_publications_section investigation
  = Ok [Text ("INVESTIGATION PUBLICATIONS" +:+ newline);
        Table (publications_table (publications investigation) source_names)].
Proof.
  intros HF. unfold investigation_publications_section. cbv zeta.
  rewrite (loop_with_increment
             (λ p, [pubmed_id p; doi p; author_list p; oa_name (status p);
                    match term_source_name (term_source (status p)) with
                    | Ok n => n
                    | Raise _ => ""
                    end;
                    term_accession (status p)])).
  - rewrite bind_Ok. unfold set_index_T, to_csv, publications_table. simpl.
    rewrite !numbered_column. simpl. repeat f_equal.
    induction HF as [|p n ps ns Hp _ IH]; simpl; [reflexivity|]. by rewrite Hp, IH.
  - intros df i p Hp. destruct (Forall2_elem_l _ _ _ _ HF Hp) as [n Hn]. by rewrite Hn.
  - by constructor.
Qed.

(** X19: when every publication's status has a resolved term source,
    the INVESTIGATION PUBLICATIONS section is written with one data
    column per publication, in order.  Its rows are the PubMed ids (as
    header), DOIs, author lists and status names; the row labelled
    '... Status Term Accession Number' holds the names of the status
    term sources and the row labelled '... Status Term Source REF' holds
    the status accessions; the publication titles are not written. *)
Theorem publications_section_table (investigation : Investigation)
    (source_names : list string) :
  Forall2 (λ p n, term_source_name (term_source (status p)) = Ok n)
    (publications investigation) source_names →
  investigation_publications_section investigation
  = Ok [Text ("INVESTIGATION PUBLICATIONS" +:+ newline);
        Table (publications_table (publications investigation) source_names)].
Proof. exact (publications_section_eq investigation source_names). Qed.

Lemma publications_section_table_witness :
  investigation_publications_section
    (mkInvestigation "INV1" "" "" "" "" [obi] [published] [] [])
  = Ok [Text ("INVESTIGATION PUBLICATIONS" +:+ newline);
        Table (publications_table [published] ["OBI"])].
Proof.
  apply (publications_section_table
           (mkInvestigation "INV1" "" "" "" "" [obi] [published] [] []) ["OBI"]).
  repeat constructor.
Defined.

(** ** Serializer: contact roles *)

Lemma str_append_assoc (a b c : string) : (a +:+ b) +:+ c = a +:+ (b +:+ c).
Proof.
  induction a as [|x a IH]; [reflexivity|].
  change (String x ((a +:+ b) +:+ c) = String x (a +:+ (b +:+ c))). by rewrite IH.
Qed.

Lemma join_roles_loop (rs : list OntologyAnnotation) (a0 b0 c0 a b c : string) :
  for_in rs
    (λ '(roles, roles_accession_numbers, roles_source_refs) role,
       let roles := roles +:+ (oa_name role +:+ ";") in
       let roles_accession_numbers :=
         roles_accession_numbers +:+ (term_accession role +:+ ";") in
       tsn ← term_source_name (term_source role);
       let roles_source_refs := roles_source_refs +:+ (tsn +:+ ";") in
       Ok (roles, roles_accession_numbers, roles_source_refs))
    (a0, b0, c0) = Ok (a, b, c) →
  a = a0 +:+ terminated (map oa_name rs)
  ∧ b = b0 +:+ terminated (map term_accession rs)
  ∧ Forall source_resolved rs.
Proof.
  revert a0 b0 c0. induction rs as [|r rs IH]; intros a0 b0 c0 H; simpl in H.
  - injection H as <- <- _. simpl. by rewrite !append_empty_r.
  - apply bind_ok_inv in H as ([[a1 b1] c1] & H1 & H).
    apply bind_ok_inv in H1 as (tsn & Ht & H1). injection H1 as <- <- <-.
    apply IH in H as (-> & -> & Hall). simpl.
    split; [|split].
    + rewrite str_append_assoc. f_equal. apply str_append_assoc.
    + rewrite str_append_assoc. f_equal. apply str_append_assoc.
    + constructor; [|exact Hall]. unfold source_resolved.
      destruct (term_source r); try discriminate Ht. by eexists.
Qed.

Lemma join_roles_total (rs : list OntologyAnnotation) :
  Forall source_resolved rs → ∃ r, join_roles rs = Ok r.
Proof.
  unfold join_roles. generalize ("", "", ""). induction rs as [|r rs IH]; intros s H; simpl.
  - by eexists.
  - apply Forall_cons in H as [[o Ho] H]. destruct s as [[a b] c]. rewrite Ho. simpl.
    by apply IH.
Qed.

Lemma split_terminated (l : list string) :
  Forall (λ x, contains_char ";" x = false) l →
  str_split ";" (terminated l) = l ++ [""].
Proof.
  induction 1 as [|x l Hx _ IH]; [reflexivity|].
  cbn [terminated]. rewrite str_split_append by exact Hx. by rewrite IH.
Qed.

(** X20: when the roles of a contact are flattened, every role name and
    every accession is followed by a semicolon, the last one included;
    so splitting the flattened names on semicolons gives the role names
    (when they contain no semicolon) followed by one empty token.  The
    flattening succeeds only if every role has a resolved term
    source. *)
Theorem join_roles_trailing_separator (rs : list OntologyAnnotation) (a b c : string) :
  join_roles rs = Ok (a, b, c) →
  Forall (λ r, contains_char ";" (oa_name r) = false) rs →
  a = terminated (map oa_name rs)
  ∧ b = terminated (map term_accession rs)
  ∧ str_split ";" a = map oa_name rs ++ [""]
  ∧ Forall source_resolved rs.
Proof.
  intros H Hfree. unfold join_roles in H. apply join_roles_loop in H as (-> & -> & Hall).
  simpl. repeat split; try done.
  apply split_terminated. by apply Forall_map.
Qed.

Lemma join_roles_trailing_separator_witness :
  "author;curator;" = terminated (map oa_name two_roles)
  ∧ "a1;a2;" = terminated (map term_accession two_roles)
  ∧ str_split ";" "author;curator;" = map oa_name two_roles ++ [""]
  ∧ Forall source_resolved two_roles.
Proof.
  apply (join_roles_trailing_separator two_roles "author;curator;" "a1;a2;" "OBI;OBI;").
  - reflexivity.
  - repeat constructor.
Defined.

(** ** Serializer: the contacts section and [dump] as a whole *)

Lemma contacts_loop_total (cs : list Contact) (s : DataFrame * nat) :
  Forall (λ c, Forall source_resolved (roles c)) cs →
  ∃ r, for_in cs
         (λ '(df, i) investigation_contact,
            '(roles, roles_accession_numbers, roles_source_refs) ←
              join_roles (roles investigation_contact);
            let df := loc_set df i [last_name investigation_contact;
                                    first_name investigation_contact;
                                    mid_initials investigation_contact;
                                    email investigation_contact;
                                    phone investigation_contact;
                                    fax investigation_contact;
                                    address investigation_contact;
                                    affiliation investigation_contact;
                                    roles; roles_accession_numbers; roles_source_refs] in
            Ok (df, i)) s = Ok r.
Proof.
  intros H. revert s. induction H as [|c cs Hc _ IH]; intros [df i]; [by eexists|].
  cbn [for_in]. destruct (join_roles_total _ Hc) as ([[a b] c'] & ->).
  rewrite !bind_Ok. apply IH.
Qed.

(** X21: the INVESTIGATION CONTACTS section written for a list of
    contacts that ends in [c] is the section written for [c] alone,
    provided the roles of the contacts before [c] have resolved term
    sources: all contacts but the last leave no trace in the output. *)
Theorem contacts_section_keeps_last (inv inv' : Investigation) (cs : list Contact)
    (c : Contact) :
  contacts inv = cs ++ [c] → contacts inv' = [c] →
  Forall (λ c, Forall source_resolved (roles c)) cs →
  investigation_contacts_section inv = investigation_contacts_section inv'.
Proof.
  intros H1 H2 Hres. unfold investigation_contacts_section. cbv zeta.
  rewrite H1, H2, for_in_app.
  match goal with |- context [for_in cs ?body ?s] =>
    destruct (contacts_loop_total cs s Hres) as [[df1 i1] Hloop];
    change (for_in cs body s = Ok (df1, i1)) in Hloop;
    pose proof Hloop as Hinv;
    apply (loop_without_increment cs body) in Hinv
  end.
  - rewrite Hloop, bind_Ok. destruct Hinv as (Hi & Hc & Hr & _). simpl in Hi, Hc, Hr.
    subst i1. simpl. destruct (join_roles (roles c)) as [[[a b] c']|e]; [|reflexivity].
    simpl. unfold loc_set. rewrite Hc. simpl.
    destruct Hr as [-> | [cells ->]]; reflexivity.
  - intros df i c0 r Hr. apply bind_ok_inv in Hr as ([[r1 r2] r3] & _ & Hr).
    injection Hr as <-. eexists. reflexivity.
  - by left.
Qed.

Lemma contacts_section_keeps_last_witness :
  investigation_contacts_section two_contacts
  = investigation_contacts_section
      (mkInvestigation "INV2" "" "" "" "" [] [] [mkContact "Jones" "Bob" "" "" "" "" "" "" []] []).
Proof.
  apply (contacts_section_keeps_last two_contacts _
           [mkContact "Smith" "Ann" "" "" "" "" "" "" []]
           (mkContact "Jones" "Bob" "" "" "" "" "" "" [])).
  - reflexivity.
  - reflexivity.
  - repeat constructor.
Defined.

Lemma for_in_ok_each {A S} (good : A → Prop) (xs : list A) (body : S → A → result S) :
  (∀ s x r, body s x = Ok r → good x) →
  ∀ s r, for_in xs body s = Ok r → Forall good xs.
Proof.
  intros Hbody. induction xs as [|x xs IH]; intros s r H; simpl in H; [constructor|].
  apply bind_ok_inv in H as (s1 & H1 & H). constructor; [by eapply Hbody | by eapply IH].
Qed.

Lemma resolved_names (pubs : list Publication) :
  Forall (λ p, source_resolved (status p)) pubs →
  ∃ names, Forall2 (λ p n, term_source_name (term_source (status p)) = Ok n) pubs names.
Proof.
  induction 1 as [|p pubs [o Ho] _ [names IH]]; [by exists []|].
  exists (osr_name o :: names). constructor; [by rewrite Ho | exact IH].
Qed.

Lemma investigation_section_eq (investigation : Investigation) :
  investigation_section investigation
  = Ok [Text ("INVESTIGATION" +:+ newline);
        Table [["Investigation Identifier"; identifier investigation];
               ["Investigation Title"; title investigation];
               ["Investigation Description"; description investigation];
               ["Investigation Submission Date"; submission_date investigation];
               ["Investigation Public Release Date"; public_release_date investigation]]].
Proof. reflexivity. Qed.

Lemma publications_section_ok (investigation : Investigation) :
  (∃ t, investigation_publications_section investigation
        = Ok [Text ("INVESTIGATION PUBLICATIONS" +:+ newline); Table t])
  ↔ Forall (λ p, source_resolved (status p)) (publications investigation).
Proof.
  split.
  - intros [t H]. unfold investigation_publications_section in H.
    apply bind_ok_inv in H as ([df i] & H & _).
    eapply for_in_ok_each; [|exact H]. intros [df0 i0] p r Hr.
    apply bind_ok_inv in Hr as (n & Hn & _). unfold source_resolved.
    destruct (term_source (status p)); try discriminate Hn. by eexists.
  - intros H. destruct (resolved_names _ H) as [names Hn].
    eexists. by apply publications_section_eq.
Qed.

Lemma contacts_section_ok (investigation : Investigation) :
  (∃ t, investigation_contacts_section investigation
        = Ok [Text ("INVESTIGATION CONTACTS" +:+ newline); Table t])
  ↔ Forall (λ c, Forall source_resolved (roles c)) (contacts investigation).
Proof.
  split.
  - intros [t H]. unfold investigation_contacts_section in H.
    apply bind_ok_inv in H as ([df i] & H & _).
    eapply for_in_ok_each; [|exact H]. intros [df0 i0] c r Hr.
    apply bind_ok_inv in Hr as ([[a b] c'] & Hj & _).
    unfold join_roles in Hj. by apply join_roles_loop in Hj as (_ & _ & Hall).
  - intros H. unfold investigation_contacts_section. cbv zeta.
    match goal with |- context [for_in ?cs ?body ?s] =>
      destruct (contacts_loop_total cs s H) as [[df1 i1] Hloop];
      change (for_in cs body s = Ok (df1, i1)) in Hloop;
      pose proof Hloop as Hinv;
      apply (loop_without_increment cs body) in Hinv
    end.
    + rewrite Hloop, bind_Ok. destruct Hinv as (_ & Hc & _). simpl in Hc.
      unfold set_index_T. rewrite Hc. simpl. by eexists.
    + intros df i c0 r Hr. apply bind_ok_inv in Hr as ([[r1 r2] r3] & _ & Hr).
      injection Hr as <-. eexists. reflexivity.
    + by left.
Qed.

Lemma publications_section_shape (investigation : Investigation) (s : list Chunk) :
  investigation_publications_section investigation = Ok s →
  ∃ t, s = [Text ("INVESTIGATION PUBLICATIONS" +:+ newline); Table t].
Proof.
  unfold investigation_publications_section. intros H.
  apply bind_ok_inv in H as ([df i] & _ & H). apply bind_ok_inv in H as (t & _ & H).
  injection H as <-. by eexists.
Qed.

Lemma contacts_section_shape (investigation : Investigation) (s : list Chunk) :
  investigation_contacts_section investigation = Ok s →
  ∃ t, s = [Text ("INVESTIGATION CONTACTS" +:+ newline); Table t].
Proof.
  unfold investigation_contacts_section. intros H.
  apply bind_ok_inv in H as ([df i] & _ & H). apply bind_ok_inv in H as (t & _ & H).
  injection H as <-. by eexists.
Qed.

Lemma dump_investigation_ok (inv : Investigation) (fp : list Chunk) :
  sources_resolved inv →
  ∃ t2 t3 t4,
    dump (AnInvestigation inv) fp
    = Ok (fp ++ [Text ("ONTOLOGY SOURCE REFERENCE" +:+ newline);
                 Table (osr_table (ontology_source_references inv));
                 Text ("INVESTIGATION" +:+ newline); Table t2;
                 Text ("INVESTIGATION PUBLICATIONS" +:+ newline); Table t3;
                 Text ("INVESTIGATION CONTACTS" +:+ newline); Table t4]).
Proof.
  intros [Hp Hc]. apply publications_section_ok in Hp as [t3 Hp].
  apply contacts_section_ok in Hc as [t4 Hc]. eexists _, t3, t4.
  unfold dump. rewrite osr_section_eq, investigation_section_eq, Hp, Hc. reflexivity.
Qed.

(** X22: [dump] returns normally exactly when it is given an
    Investigation in which every publication status and every contact
    role has a resolved term source; for a study or an assay, and for an
    Investigation with an unresolved term source, it raises. *)
Theorem dump_succeeds_iff (isa_obj : IsaObject) (fp : list Chunk) :
  (∃ out, dump isa_obj fp = Ok out)
  ↔ ∃ inv, isa_obj = AnInvestigation inv ∧ sources_resolved inv.
Proof.
  split.
  - intros [out H]. destruct isa_obj as [inv| |]; try discriminate H.
    exists inv. split; [reflexivity|]. unfold dump in H.
    apply bind_ok_inv in H as (s1 & _ & H). apply bind_ok_inv in H as (s2 & _ & H).
    apply bind_ok_inv in H as (s3 & H3 & H). apply bind_ok_inv in H as (s4 & H4 & _).
    destruct (publications_section_shape _ _ H3) as [t3 ->].
    destruct (contacts_section_shape _ _ H4) as [t4 ->].
    split; [apply publications_section_ok | apply contacts_section_ok]; by eexists.
  - intros (inv & -> & Hres).
    destruct (dump_investigation_ok inv fp Hres) as (t2 & t3 & t4 & H). by eexists.
Qed.

(** X23: for an Investigation whose term sources are resolved, [dump]
    keeps what was written to the sink before and appends exactly four
    sections, each a title line followed by one table, in the order
    ONTOLOGY SOURCE REFERENCE, INVESTIGATION, INVESTIGATION PUBLICATIONS,
    INVESTIGATION CONTACTS; no study or assay section is written. *)
Theorem dump_sections (inv : Investigation) (fp : list Chunk) :
  sources_resolved inv →
  ∃ t2 t3 t4,
    dump (AnInvestigation inv) fp
    = Ok (fp ++ [Text ("ONTOLOGY SOURCE REFERENCE" +:+ newline);
                 Table (osr_table (ontology_source_references inv));
                 Text ("INVESTIGATION" +:+ newline); Table t2;
                 Text ("INVESTIGATION PUBLICATIONS" +:+ newline); Table t3;
                 Text ("INVESTIGATION CONTACTS" +:+ newline); Table t4]).
Proof. exact (dump_investigation_ok inv fp). Qed.

Lemma dump_sections_witness :
  ∃ t2 t3 t4,
    dump (AnInvestigation two_contacts) [Text "before"]
    = Ok ([Text "before"]
          ++ [Text ("ONTOLOGY SOURCE REFERENCE" +:+ newline);
              Table (osr_table (ontology_source_references two_contacts));
              Text ("INVESTIGATION" +:+ newline); Table t2;
              Text ("INVESTIGATION PUBLICATIONS" +:+ newline); Table t3;
              Text ("INVESTIGATION CONTACTS" +:+ newline); Table t4]).
Proof.
  apply (dump_sections two_contacts [Text "before"]). split; repeat constructor.
Defined.

(** X24: whatever Investigation [load] returns can be serialized:
    [dump] succeeds on it, because a loaded Investigation has no
    publications and its contacts have no roles. *)
Theorem load_then_dump (t : IsaTab) (inv : Investigation) (fp : list Chunk) :
  load_tree (Some t) = Ok (Some inv) →
  publications inv = []
  ∧ Forall (λ c, roles c = []) (contacts inv)
  ∧ ∃ out, dump (AnInvestigation inv) fp = Ok out.
Proof.
  intros H. apply load_tree_rel in H as (_ & _ & _ & _ & _ & _ & Hp & Hc & _).
  assert (Hroles : Forall (λ c, roles c = []) (contacts inv)).
  { clear Hp. induction Hc as [|r c rs cs Hrc _ IH]; constructor; [|exact IH].
    by destruct Hrc as (_ & _ & _ & _ & _ & _ & _ & _ & Hr). }
  split; [exact Hp|]. split; [exact Hroles|].
  destruct (dump_investigation_ok inv fp) as (t2 & t3 & t4 & Hd); [|by eexists].
  split.
  - rewrite Hp. constructor.
  - eapply Forall_impl; [exact Hroles|]. intros c ->. constructor.
Qed.

Lemma load_then_dump_witness :
  publications (mkInvestigation "INV1" "t" "d" "2015" "2016" [] [] [] []) = []
  ∧ Forall (λ c, roles c = [])
      (contacts (mkInvestigation "INV1" "t" "d" "2015" "2016" [] [] [] []))
  ∧ ∃ out, dump (AnInvestigation (mkInvestigation "INV1" "t" "d" "2015" "2016" [] [] [] []))
             [] = Ok out.
Proof.
  apply (load_then_dump (mkIsaTab full_metadata [] [] [] [])). reflexivity.
Defined.

(** ** Input and output lists *)

Lemma od_get_value {V} (d : odict V) (k : string) (v : V) :
  od_get d k = Some v → v ∈ od_values d.
Proof.
  induction d as [|[k' v'] d IH]; simpl; [discriminate|].
  destruct (decide (k' = k)); intros H.
  - injection H as ->. left.
  - right. by apply IH.
Qed.

(** X25: the input and output list builders never fail and work name by
    name: the list for [l1 ++ l2] is the list for [l1] followed by the
    list for [l2]; an input list has at most two entries per name, an
    output list at most one; and every entry is a value of the source or
    sample dictionary it was looked up in. *)
Theorem link_lists_by_name (l1 l2 : list string)
    (source_dict : odict SourceItem) (sample_dict : odict SampleItem) :
  ∃ i1 i2 o1 o2,
    _createInputList l1 source_dict sample_dict = Ok i1
    ∧ _createInputList l2 source_dict sample_dict = Ok i2
    ∧ _createInputList (l1 ++ l2) source_dict sample_dict = Ok (i1 ++ i2)
    ∧ _createOutputList l1 sample_dict = Ok o1
    ∧ _createOutputList l2 sample_dict = Ok o2
    ∧ _createOutputList (l1 ++ l2) sample_dict = Ok (o1 ++ o2)
    ∧ (length i1 ≤ 2 * length l1)%nat
    ∧ (length o1 ≤ length l1)%nat
    ∧ Forall (from_dictionaries source_dict sample_dict) i1
    ∧ Forall (λ t, t ∈ od_values sample_dict) o1.
Proof.
  rewrite !createInputList_eq, !createOutputList_eq. do 4 eexists.
  split; [reflexivity|]. split; [reflexivity|].
  split; [by rewrite map_app, concat_app|].
  split; [reflexivity|]. split; [reflexivity|].
  split; [by rewrite omap_app|].
  split; [|split; [|split]].
  - induction l1 as [|a l1 IH]; simpl; [lia|]. rewrite length_app. unfold input_entries at 1.
    destruct (od_get source_dict a), (od_get sample_dict a); simpl; lia.
  - rewrite <- concat_option_list. apply length_concat_le.
    intros a. destruct (od_get sample_dict a); simpl; lia.
  - induction l1 as [|a l1 IH]; simpl; [constructor|]. apply Forall_app. split; [|exact IH].
    unfold input_entries.
    destruct (od_get source_dict a) as [s|] eqn:Es, (od_get sample_dict a) as [t|] eqn:Et;
      simpl; repeat constructor; simpl; eauto using od_get_value.
  - apply Forall_forall. intros t Ht. apply list_elem_of_omap in Ht as (a & _ & Ha).
    by eapply od_get_value.
Qed.
